(** * user-profile-service: validation and error-classification pipeline

    A shallow embedding of the request pipeline of the service: the
    JavaScript values that flow through it, the error taxonomy and the
    boundary [errorHandler] (middleware/errorHandler.ts), the Joi schemas and
    [validateRequest] (middleware/validationMiddleware.ts), the relational
    store behind [db.query] (database.ts) and the five user routes
    (routes/userRoutes.ts); and, around them, the handler of unmatched
    routes, the level of the request log (middleware/loggerMiddleware.ts),
    the health check and the health routes (routes/healthRoutes.ts), the
    container's probe (healthcheck.js) and the seeding script
    (database/seed.ts).

    Conventions of the embedding.
    - JavaScript numbers that are integers are [Z]; the model is exact for
      magnitudes the double format represents exactly.
    - Strings are [string]; their length is the number of characters.
    - Code that throws lives in the monad [M]: a state transformer over
      [World] whose outcome is a value or a thrown error object.
    - What the platform and the libraries decide (the email and GUID
      grammars of Joi, its number coercion and message templates, the text of
      a captured stack) is the class [Platform]. *)

From Stdlib Require Import ZArith List String Ascii Bool Lia.
From Stdlib Require Import DecimalString DecimalPos.
Import ListNotations.
Local Open Scope string_scope.
Local Open Scope Z_scope.

(** ** JavaScript values *)

Module Js.

(** A number is an integer, or a non-integer given by its floor and by the
    text JavaScript prints for it. *)
Inductive num : Type :=
| Int (z : Z)
| Frac (floor : Z) (repr : string).

#[warnings="-register-all"]
Inductive value : Type :=
| VUndefined
| VNull
| VBool (b : bool)
| VNum (n : num)
| VStr (s : string)
| VArr (items : list value)
| VObj (fields : list (string * value)).

Definition VInt (z : Z) : value := VNum (Int z).

Fixpoint assoc {A : Type} (k : string) (l : list (string * A)) : option A :=
  match l with
  | [] => None
  | (k', v) :: r => if String.eqb k k' then Some v else assoc k r
  end.

(** [o.k = v]: an existing property keeps its place, a new one goes last. *)
Fixpoint assign {A : Type} (k : string) (v : A) (l : list (string * A))
  : list (string * A) :=
  match l with
  | [] => [(k, v)]
  | (k', v') :: r =>
      if String.eqb k k' then (k, v) :: r else (k', v') :: assign k v r
  end.

(** [o.k] on a plain object; any other value has no such property here. *)
Definition field (k : string) (o : value) : value :=
  match o with
  | VObj fs => match assoc k fs with Some v => v | None => VUndefined end
  | _ => VUndefined
  end.

Definition num_eqb (a b : num) : bool :=
  match a, b with
  | Int x, Int y => Z.eqb x y
  | Frac x r, Frac y s => Z.eqb x y && String.eqb r s
  | _, _ => false
  end.

(** [a === b]; two object or array expressions never denote the same
    reference in the modelled code. *)
Definition strict_eq (a b : value) : bool :=
  match a, b with
  | VUndefined, VUndefined => true
  | VNull, VNull => true
  | VBool x, VBool y => Bool.eqb x y
  | VNum x, VNum y => num_eqb x y
  | VStr x, VStr y => String.eqb x y
  | _, _ => false
  end.

Definition truthy (v : value) : bool :=
  match v with
  | VUndefined | VNull => false
  | VBool b => b
  | VNum (Int z) => negb (Z.eqb z 0)
  | VNum (Frac _ _) => true
  | VStr s => negb (String.eqb s "")
  | VArr _ | VObj _ => true
  end.

(** [a || b] and [a && b]. *)
Definition or (a b : value) : value := if truthy a then a else b.
Definition and (a b : value) : value := if truthy a then b else a.

Definition string_of_Z (z : Z) : string := NilZero.string_of_int (Z.to_int z).

(** [String(v)]; an array prints its elements separated by commas, with
    [null] and [undefined] elements printed as nothing. *)
Fixpoint toString (v : value) : string :=
  match v with
  | VUndefined => "undefined"
  | VNull => "null"
  | VBool true => "true"
  | VBool false => "false"
  | VNum (Int z) => string_of_Z z
  | VNum (Frac _ r) => r
  | VStr s => s
  | VArr items =>
      (fix go (l : list value) : string :=
         match l with
         | [] => ""
         | x :: r =>
             let e := match x with
                      | VUndefined | VNull => ""
                      | _ => toString x
                      end in
             match r with
             | [] => e
             | _ :: _ => e ++ "," ++ go r
             end
         end) items
  | VObj _ => "[object Object]"
  end.

(** [Object.keys(v)]. *)
Definition keys (v : value) : list string :=
  match v with
  | VObj fs => map fst fs
  | _ => []
  end.

(** [...v] inside an object literal: the own enumerable properties of an
    object; the falsy primitives the code spreads contribute nothing. *)
Definition spread (v : value) : list (string * value) :=
  match v with
  | VObj fs => fs
  | _ => []
  end.

(** [JSON.stringify] followed by [JSON.parse]: what the client receives.
    Properties whose value is [undefined] are left out; [undefined] inside
    an array becomes [null]. *)
Fixpoint json (v : value) : value :=
  match v with
  | VArr items =>
      VArr (map (fun i => match i with VUndefined => VNull | _ => json i end)
                items)
  | VObj fs =>
      VObj ((fix go (l : list (string * value)) : list (string * value) :=
               match l with
               | [] => []
               | (_, VUndefined) :: r => go r
               | (k, x) :: r => (k, json x) :: go r
               end) fs)
  | _ => v
  end.

(** *** [parseInt] *)

Definition is_space (c : ascii) : bool :=
  let n := nat_of_ascii c in
  (Nat.eqb n 32 || (Nat.leb 9 n && Nat.leb n 13))%bool.

Fixpoint skip_spaces (s : string) : string :=
  match s with
  | String c r => if is_space c then skip_spaces r else s
  | EmptyString => s
  end.

Definition digit (radix : Z) (c : ascii) : option Z :=
  let n := Z.of_nat (nat_of_ascii c) in
  let d := if (48 <=? n) && (n <=? 57) then Some (n - 48)
           else if (97 <=? n) && (n <=? 122) then Some (n - 87)
           else if (65 <=? n) && (n <=? 90) then Some (n - 55)
           else None in
  match d with
  | Some x => if x <? radix then Some x else None
  | None => None
  end.

(** The longest prefix of digits, read in [radix]; [None] when it is empty. *)
Fixpoint digits (radix : Z) (s : string) (acc : option Z) : option Z :=
  match s with
  | String c r =>
      match digit radix c with
      | Some d => digits radix r (Some (radix * match acc with
                                                | Some a => a
                                                | None => 0
                                                end + d))
      | None => acc
      end
  | EmptyString => acc
  end.

(** [parseInt(s)] with no radix argument; [None] is [NaN]. *)
Definition parseInt_string (s : string) : option Z :=
  let s := skip_spaces s in
  let '(sign, s) :=
    match s with
    | String "-" r => (-1, r)
    | String "+" r => (1, r)
    | _ => (1, s)
    end in
  let '(radix, s) :=
    match s with
    | String "0" (String "x" r) => (16, r)
    | String "0" (String "X" r) => (16, r)
    | _ => (10, s)
    end in
  match digits radix s None with
  | Some n => Some (sign * n)
  | None => None
  end.

Definition parseInt (v : value) : option Z := parseInt_string (toString v).

(** [parseInt(v) || d]: [NaN] and [0] are falsy. *)
Definition parseInt_or (v : value) (d : Z) : Z :=
  match parseInt v with
  | Some 0 | None => d
  | Some n => n
  end.

(** [Math.ceil(a / b)] for integers [a] and [b], [b] not zero. *)
Definition ceil_div (a b : Z) : Z := - ((- a) / b).

End Js.

Import Js.

(** ** What the platform and the libraries decide *)

Class Platform : Type := {
  (** Joi's [string().email()] grammar. *)
  isEmail : string -> bool;
  (** Joi's [string().uuid()] grammar. *)
  isGuid : string -> bool;
  (** Joi's coercion of a string to a number ([convert] is on by default);
      [None] when the string is not a number. *)
  numberOfString : string -> option num;
  (** Joi's message template for an error code and a field label, used
      where the schema gives no message of its own. *)
  defaultMessage : string -> string -> string;
  (** The text [Error.captureStackTrace] stores for an error with the
      given message. *)
  stackTrace : string -> string
}.

(** ** Error taxonomy and the boundary responder (middleware/errorHandler.ts) *)

Module Errors.

(** The classes an error object can be an instance of. [OtherError name] is
    any subclass of [Error] outside the taxonomy whose prototype carries
    [name]; [PlainObject] is an object literal. *)
Inductive Class : Type :=
| PlainObject
| Error
| OtherError (name : string)
| HttpError
| NotFoundError
| ValidationError
| UnauthorizedError
| ForbiddenError
| ConflictError.

Definition Class_eqb (a b : Class) : bool :=
  match a, b with
  | PlainObject, PlainObject | Error, Error | HttpError, HttpError
  | NotFoundError, NotFoundError | ValidationError, ValidationError
  | UnauthorizedError, UnauthorizedError | ForbiddenError, ForbiddenError
  | ConflictError, ConflictError => true
  | OtherError x, OtherError y => String.eqb x y
  | _, _ => false
  end.

(** [class A extends B]. *)
Definition extends (c : Class) : option Class :=
  match c with
  | PlainObject => None
  | Error => Some PlainObject
  | OtherError _ => Some Error
  | HttpError => Some Error
  | NotFoundError | ValidationError | UnauthorizedError
  | ForbiddenError | ConflictError => Some HttpError
  end.

(** An own property: its value, and whether enumeration (and so the spread
    [{...o}]) sees it. *)
Record prop : Type := { pvalue : value; enumerable : bool }.

Record object : Type := { class : Class; own : list (string * prop) }.

(** [o instanceof C]: the prototype chain has depth at most three. *)
Definition instanceof (o : object) (C : Class) : bool :=
  let up c := match c with Some x => extends x | None => None end in
  let hit c := match c with Some x => Class_eqb x C | None => false end in
  let c0 := Some (class o) in
  hit c0 || hit (up c0) || hit (up (up c0)) || hit (up (up (up c0))).

(** What the prototype chain supplies when [o] has no own property [k]:
    [Error.prototype] carries [name] and an empty [message]; no class of the
    taxonomy sets a [name] of its own. *)
Definition inherited (c : Class) (k : string) : value :=
  match c with
  | PlainObject => VUndefined
  | OtherError n =>
      if String.eqb k "name" then VStr n
      else if String.eqb k "message" then VStr "" else VUndefined
  | _ =>
      if String.eqb k "name" then VStr "Error"
      else if String.eqb k "message" then VStr "" else VUndefined
  end.

(** [o.k]. *)
Definition get (o : object) (k : string) : value :=
  match assoc k (own o) with
  | Some p => pvalue p
  | None => inherited (class o) k
  end.

(** [o.k = v]: an existing own property keeps its attributes. *)
Definition set (o : object) (k : string) (v : value) : object :=
  let e := match assoc k (own o) with
           | Some p => enumerable p
           | None => true
           end in
  {| class := class o;
     own := assign k {| pvalue := v; enumerable := e |} (own o) |}.

(** [{ ...o }]: a plain object holding the own enumerable properties. *)
Definition spread_object (o : object) : object :=
  {| class := PlainObject;
     own := filter (fun kp => enumerable (snd kp)) (own o) |}.

Section Constructors.
Context {P : Platform}.

(** [new Error(message)]-style initialisation shared by the taxonomy:
    [message] and [stack] are own and not enumerable; [undefined] as message
    leaves the inherited empty one. *)
Definition error_props (message : value) : list (string * prop) :=
  let hidden v := {| pvalue := v; enumerable := false |} in
  match message with
  | VUndefined => [("stack", hidden (VStr (stackTrace "")))]
  | _ => [("stack", hidden (VStr (stackTrace (toString message))));
          ("message", hidden (VStr (toString message)))]
  end.

(** The body of [HttpError]'s constructor, run for the class [c] being
    constructed; [statusCode] defaults to 500 and [code] to [undefined]. *)
Definition construct (c : Class) (message : value) (statusCode : option Z)
  (code : option string) : object :=
  let shown v := {| pvalue := v; enumerable := true |} in
  let sc := match statusCode with Some n => n | None => 500 end in
  {| class := c;
     own := error_props message ++
            [("statusCode", shown (VInt sc));
             ("status", shown (VStr (if (400 <=? sc) && (sc <? 500)
                                     then "fail" else "error")));
             ("code", shown (match code with
                             | Some s => VStr s
                             | None => VUndefined
                             end))] |}.

Definition new_HttpError (message : value) (statusCode : option Z)
  (code : option string) : object :=
  construct HttpError message statusCode code.

Definition default (message : option string) (d : string) : value :=
  VStr (match message with Some m => m | None => d end).

Definition new_NotFoundError (message : option string) : object :=
  construct NotFoundError (default message "Resource not found")
            (Some 404) (Some "NOT_FOUND").

Definition new_ValidationError (message : option string) : object :=
  construct ValidationError (default message "Validation failed")
            (Some 400) (Some "VALIDATION_ERROR").

Definition new_UnauthorizedError (message : option string) : object :=
  construct UnauthorizedError (default message "Unauthorized")
            (Some 401) (Some "UNAUTHORIZED").

Definition new_ForbiddenError (message : option string) : object :=
  construct ForbiddenError (default message "Forbidden")
            (Some 403) (Some "FORBIDDEN").

Definition new_ConflictError (message : option string) : object :=
  construct ConflictError (default message "Conflict")
            (Some 409) (Some "CONFLICT").

(** [new Error(message)] as the store driver and other libraries throw it. *)
Definition new_Error (message : string) : object :=
  {| class := Error; own := error_props (VStr message) |}.

(** What [res.status(s).json(b)] sends: the status and the JSON body. *)
Record Response : Type := { status : value; payload : value }.

(** [errorHandler(err, req, res, _next)], with [process.env.NODE_ENV] as
    [NODE_ENV]. The call to [logger.error] writes to the log only and is
    left out. *)
Definition errorHandler (NODE_ENV : value) (err : object) : Response :=
  let error := spread_object err in
  let error :=
    if negb (instanceof err HttpError)
    then new_HttpError
           (if strict_eq NODE_ENV (VStr "production")
            then VStr "Something went wrong"
            else get err "message")
           (Some 500) (Some "INTERNAL_SERVER_ERROR")
    else error in
  let error :=
    if strict_eq (get error "name") (VStr "ValidationError")
    then set (set error "statusCode" (VInt 400)) "code"
             (VStr "VALIDATION_ERROR")
    else error in
  let error :=
    if strict_eq (get error "code") (VInt 11000)
    then
      let field := match keys (or (get error "keyPattern") (VObj [])) with
                   | k :: _ => VStr k
                   | [] => VUndefined
                   end in
      set (set (set error "statusCode" (VInt 409)) "code"
               (VStr "DUPLICATE_KEY"))
          "message" (VStr (toString field ++ " already exists"))
    else error in
  let error :=
    if strict_eq (get error "name") (VStr "JsonWebTokenError")
    then set (set error "statusCode" (VInt 401)) "code" (VStr "INVALID_TOKEN")
    else error in
  let error :=
    if strict_eq (get error "name") (VStr "TokenExpiredError")
    then set (set error "statusCode" (VInt 401)) "code" (VStr "TOKEN_EXPIRED")
    else error in
  {| status := or (get error "statusCode") (VInt 500);
     payload :=
       json (VObj
         ([("success", VBool false);
           ("error", or (get error "message") (VStr "Something went wrong"))]
          ++ spread (and (get error "code")
                         (VObj [("code", get error "code")]))
          ++ spread (and (VBool (strict_eq NODE_ENV (VStr "development")))
                         (VObj [("stack", get error "stack")])))) |}.

End Constructors.

End Errors.

(** ** The part of Joi the schemas use *)

Module Joi.

Inductive Base : Type := TString | TNumber.

Inductive Rule : Type :=
| RMin (limit : Z)
| RMax (limit : Z)
| REmail
| RGuid
| RInteger.

Inductive Presence : Type := Required | Optional.

(** A key's schema, as a chain such as
    [Joi.string().min(2).max(100).required().messages({...})] builds it. *)
Record Schema : Type := {
  base : Base;
  rules : list Rule;
  presence : Presence;
  default_value : option value;
  custom : list (string * string)
}.

Definition string_ : Schema :=
  {| base := TString; rules := []; presence := Optional;
     default_value := None; custom := [] |}.

Definition number_ : Schema :=
  {| base := TNumber; rules := []; presence := Optional;
     default_value := None; custom := [] |}.

Definition with_rule (r : Rule) (s : Schema) : Schema :=
  {| base := base s; rules := rules s ++ [r]; presence := presence s;
     default_value := default_value s; custom := custom s |}.

Definition min (n : Z) : Schema -> Schema := with_rule (RMin n).
Definition max (n : Z) : Schema -> Schema := with_rule (RMax n).
Definition email : Schema -> Schema := with_rule REmail.
Definition uuid : Schema -> Schema := with_rule RGuid.
Definition integer : Schema -> Schema := with_rule RInteger.

Definition required (s : Schema) : Schema :=
  {| base := base s; rules := rules s; presence := Required;
     default_value := default_value s; custom := custom s |}.

Definition optional (s : Schema) : Schema :=
  {| base := base s; rules := rules s; presence := Optional;
     default_value := default_value s; custom := custom s |}.

Definition default (v : value) (s : Schema) : Schema :=
  {| base := base s; rules := rules s; presence := presence s;
     default_value := Some v; custom := custom s |}.

Definition messages (m : list (string * string)) (s : Schema) : Schema :=
  {| base := base s; rules := rules s; presence := presence s;
     default_value := default_value s; custom := custom s ++ m |}.

(** [Joi.object({...})]: the keys in the order they are declared. *)
Definition ObjectSchema : Type := list (string * Schema).

(** One entry of [error.details]. *)
Record Detail : Type := {
  path : list string;
  type : string;
  message : string
}.

Definition MAX_SAFE_INTEGER : Z := 9007199254740991.

Definition unsafe (n : num) : bool :=
  match n with
  | Int z => (MAX_SAFE_INTEGER <? z) || (z <? - MAX_SAFE_INTEGER)
  | Frac fl _ => (MAX_SAFE_INTEGER <=? fl) || (fl <? - MAX_SAFE_INTEGER)
  end.

(** [n >= limit] and [n <= limit] for an integer [limit]. *)
Definition num_geb (n : num) (limit : Z) : bool :=
  match n with
  | Int z => limit <=? z
  | Frac fl _ => limit <=? fl
  end.

Definition num_leb (n : num) (limit : Z) : bool :=
  match n with
  | Int z => z <=? limit
  | Frac fl _ => fl <? limit
  end.

Section Validation.
Context {P : Platform}.

(** The error code a rule reports on a value of the schema's base type, if
    the value breaks the rule. A rule that does not belong to the base type
    cannot be written in Joi and reports nothing here. *)
Definition string_rule (x : string) (r : Rule) : option string :=
  match r with
  | RMin limit =>
      if limit <=? Z.of_nat (String.length x) then None
      else Some "string.min"
  | RMax limit =>
      if Z.of_nat (String.length x) <=? limit then None
      else Some "string.max"
  | REmail => if isEmail x then None else Some "string.email"
  | RGuid => if isGuid x then None else Some "string.guid"
  | RInteger => None
  end.

Definition number_rule (n : num) (r : Rule) : option string :=
  match r with
  | RMin limit => if num_geb n limit then None else Some "number.min"
  | RMax limit => if num_leb n limit then None else Some "number.max"
  | RInteger =>
      match n with
      | Int _ => None
      | Frac _ _ => Some "number.integer"
      end
  | REmail | RGuid => None
  end.

Definition failures {A : Type} (check : A -> Rule -> option string) (x : A)
  (rs : list Rule) : list string :=
  flat_map (fun r => match check x r with Some c => [c] | None => [] end) rs.

Definition allows_empty (s : Schema) : bool :=
  existsb (fun r => match r with RMin 0 => true | _ => false end) (rules s).

(** The codes Joi reports for the value [v] of a key with schema [s] when
    [abortEarly] is off: a missing value is judged by presence alone, a
    failure of the base type ends the key's validation, and after it every
    rule of the chain is evaluated. *)
Definition codes (s : Schema) (v : value) : list string :=
  match v with
  | VUndefined =>
      match presence s with
      | Required => ["any.required"]
      | Optional => []
      end
  | _ =>
      match base s with
      | TString =>
          match v with
          | VStr x =>
              if String.eqb x "" && negb (allows_empty s)
              then ["string.empty"]
              else failures string_rule x (rules s)
          | _ => ["string.base"]
          end
      | TNumber =>
          let coerced :=
            match v with
            | VStr x =>
                match numberOfString x with
                | Some n => VNum n
                | None => v
                end
            | _ => v
            end in
          match coerced with
          | VNum n =>
              if unsafe n then ["number.unsafe"]
              else failures number_rule n (rules s)
          | _ => ["number.base"]
          end
      end
  end.

(** The message of a detail: the schema's own message for the code when
    [.messages] gives one, Joi's template otherwise. *)
Definition render (key : string) (s : Schema) (code : string) : string :=
  match assoc code (custom s) with
  | Some m => m
  | None => defaultMessage code key
  end.

Definition details_of_key (key : string) (s : Schema) (v : value)
  : list Detail :=
  map (fun c => {| path := [key]; type := c; message := render key s c |})
      (codes s v).

(** [schema.validate(input, { abortEarly: false, allowUnknown: false,
    stripUnknown: true }).error.details]; the empty list stands for an
    [error] that is [undefined]. Keys the schema does not declare are
    stripped and never reported; an input that is [undefined] is accepted as
    it is; any input that is not an object fails as a whole. *)
Definition validate (schema : ObjectSchema) (input : value) : list Detail :=
  match input with
  | VObj _ =>
      flat_map (fun ks => details_of_key (fst ks) (snd ks)
                                         (field (fst ks) input))
               schema
  | VUndefined => []
  | _ => [{| path := []; type := "object.base";
             message := defaultMessage "object.base" "value" |}]
  end.

End Validation.

End Joi.

(** ** The relational store (database.ts and the statements of the routes) *)

Module Store.

(** A row of a result, or of the table [users]: column name to value. *)
Definition Row : Type := list (string * value).

Definition column (c : string) (r : Row) : value := field c (VObj r).

(** An identifier as a statement writes it. PostgreSQL folds an identifier
    written without quotes to lower case and takes a quoted one as it
    stands. *)
Inductive Ident : Type :=
| Bare (name : string)
| Quoted (name : string).

Definition lower_ascii (c : ascii) : ascii :=
  let n := nat_of_ascii c in
  if (Nat.leb 65 n && Nat.leb n 90)%bool then ascii_of_nat (n + 32) else c.

Fixpoint lower (s : string) : string :=
  match s with
  | String c r => String (lower_ascii c) (lower r)
  | EmptyString => EmptyString
  end.

(** The name of the column an identifier denotes. *)
Definition resolve (i : Ident) : string :=
  match i with
  | Bare name => lower name
  | Quoted name => name
  end.

(** The columns of [users], as the tests create the table:
    [id UUID PRIMARY KEY, name VARCHAR(100) NOT NULL,
     email VARCHAR(255) UNIQUE NOT NULL, age INT,
     "createdAt" TIMESTAMP NOT NULL, "updatedAt" TIMESTAMP NOT NULL],
    the last two written in quotes. *)
Definition users_columns : list string :=
  map resolve [Bare "id"; Bare "name"; Bare "email"; Bare "age";
               Quoted "createdAt"; Quoted "updatedAt"].

Definition is_column (name : string) : bool :=
  existsb (String.eqb name) users_columns.

(** The statements the routes send, each with its parameters [$1], [$2],
    ... in order; identifiers whose spelling has capitals are kept as the
    statement writes them. [Update sets values] is the statement the update
    route assembles: [UPDATE users SET c = $i, ... WHERE id = $1 RETURNING *]
    with one pair [(c, i)] per assignment and [values] as parameters. *)
Inductive Statement : Type :=
| CountUsers
    (* SELECT COUNT( * ) FROM users *)
| SelectPage (order_by : Ident) (limit offset : Z)
    (* SELECT * FROM users ORDER BY createdAt DESC LIMIT $1 OFFSET $2 *)
| SelectById (id : value)
    (* SELECT * FROM users WHERE id = $1 *)
| SelectIdById (id : value)
    (* SELECT id FROM users WHERE id = $1 *)
| SelectIdByEmail (email : value)
    (* SELECT id FROM users WHERE email = $1 *)
| SelectIdByEmailNotId (email id : value)
    (* SELECT id FROM users WHERE email = $1 AND id != $2 *)
| Insert (columns : list Ident) (values : list value)
    (* INSERT INTO users (id, name, email, age, "createdAt", "updatedAt")
       VALUES ($1, $2, $3, $4, $5, $6) RETURNING * *)
| Update (sets : list (Ident * nat)) (values : list value)
| Delete (id : value).
    (* DELETE FROM users WHERE id = $1 RETURNING id *)

(** SQL [=] on the values the routes compare: text and integers; a null on
    either side never compares equal. The store's collation is taken to be
    equality of the text. *)
Definition sql_eq (a b : value) : bool :=
  match a, b with
  | VStr x, VStr y => String.eqb x y
  | VNum x, VNum y => num_eqb x y
  | _, _ => false
  end.

(** [ORDER BY c DESC]: insertion of a row before the first row that is not
    later than it in column [c]; rows whose values do not compare keep their
    order. *)
Definition later (c : string) (a b : Row) : bool :=
  match column c a, column c b with
  | VStr x, VStr y => negb (String.leb x y)
  | _, _ => false
  end.

Fixpoint insert_desc (c : string) (r : Row) (l : list Row) : list Row :=
  match l with
  | [] => [r]
  | x :: t => if later c r x then r :: l else x :: insert_desc c r t
  end.

Definition order_desc (c : string) (l : list Row) : list Row :=
  fold_right (insert_desc c) [] l.

Definition only_id (r : Row) : Row := [("id", column "id" r)].

Definition has_id (id : value) (r : Row) : bool := sql_eq (column "id" r) id.

Definition has_email (email : value) (r : Row) : bool :=
  sql_eq (column "email" r) email.

(** The value of parameter [$i]. *)
Definition param (values : list value) (i : nat) : value :=
  nth (Nat.pred i) values VNull.

Definition apply_sets (sets : list (Ident * nat)) (values : list value)
  (r : Row) : Row :=
  fold_left (fun acc s => assign (resolve (fst s)) (param values (snd s)) acc)
            sets r.

(** The uniqueness constraints of the table as the tests create it,
    [id UUID PRIMARY KEY] and [email VARCHAR(255) UNIQUE NOT NULL]: a row may
    not enter a table in which another row has its id or its email. *)
Definition collides (r : Row) (others : list Row) : bool :=
  existsb (has_id (column "id" r)) others
  || existsb (has_email (column "email" r)) others.

Definition duplicate_key : string :=
  "duplicate key value violates unique constraint".

Definition undefined_column : string := "column does not exist".

(** The outcome of a statement on the table: an error message, or the
    result rows and the table afterwards. *)
Definition exec (q : Statement) (table : list Row)
  : string + (list Row * list Row) :=
  match q with
  | CountUsers =>
      inr ([[("count",
              VStr (string_of_Z (Z.of_nat (List.length table))))]], table)
  | SelectPage order_by limit offset =>
      if negb (is_column (resolve order_by)) then inl undefined_column
      else if limit <? 0 then inl "LIMIT must not be negative"
      else if offset <? 0 then inl "OFFSET must not be negative"
      else inr (firstn (Z.to_nat limit)
                       (skipn (Z.to_nat offset)
                              (order_desc (resolve order_by) table)), table)
  | SelectById id => inr (filter (has_id id) table, table)
  | SelectIdById id => inr (map only_id (filter (has_id id) table), table)
  | SelectIdByEmail email =>
      inr (map only_id (filter (has_email email) table), table)
  | SelectIdByEmailNotId email id =>
      inr (map only_id
               (filter (fun r => has_email email r && negb (has_id id r))
                       table), table)
  | Insert columns values =>
      let row := combine (map resolve columns) values in
      if negb (forallb is_column (map resolve columns))
      then inl undefined_column
      else if collides row table then inl duplicate_key
      else inr ([row], (table ++ [row])%list)
  | Update sets values =>
      let id := param values 1 in
      let others := filter (fun r => negb (has_id id r)) table in
      let updated := map (apply_sets sets values)
                         (filter (has_id id) table) in
      if negb (forallb (fun s => is_column (resolve (fst s))) sets)
      then inl undefined_column
      else if existsb (fun r => existsb (has_email (column "email" r))
                                        others)
                      updated
      then inl duplicate_key
      else inr (updated,
                map (fun r => if has_id id r
                              then apply_sets sets values r else r)
                    table)
  | Delete id =>
      inr (map only_id (filter (has_id id) table),
           filter (fun r => negb (has_id id r)) table)
  end.

End Store.

(** ** The world a request runs in, and code that throws *)

Module Effect.

Import Errors Store.

Record World : Type := {
  (** the table [users], oldest row first *)
  users : list Row;
  (** the statements sent to the store so far, latest first *)
  sent : list Statement;
  (** whether the store answers the k-th statement sent (counted from 0)
      with an error of its own (unreachable, timeout), and its message *)
  faults : nat -> option string;
  (** how many statements the store answered with an error *)
  failed : nat;
  (** the ids [uuidv4()] returns, in order, and how many were drawn *)
  uuids : nat -> string;
  drawn : nat;
  (** what [new Date().toISOString()] returns, read after read *)
  clock : nat -> string;
  reads : nat;
  (** [process.env.NODE_ENV] *)
  NODE_ENV : value
}.

Inductive Outcome (A : Type) : Type :=
| Returned (a : A)
| Thrown (e : object).

Arguments Returned {A} a.
Arguments Thrown {A} e.

Definition M (A : Type) : Type := World -> Outcome A * World.

Definition ret {A : Type} (a : A) : M A := fun w => (Returned a, w).

Definition throw {A : Type} (e : object) : M A := fun w => (Thrown e, w).

Definition bind {A B : Type} (m : M A) (k : A -> M B) : M B :=
  fun w =>
    match m w with
    | (Returned a, w') => k a w'
    | (Thrown e, w') => (Thrown e, w')
    end.

(** [try { m } catch (error) { h error }]. *)
Definition try_catch {A : Type} (m : M A) (h : object -> M A) : M A :=
  fun w =>
    match m w with
    | (Returned a, w') => (Returned a, w')
    | (Thrown e, w') => h e w'
    end.

Notation "x <- m ;; k" := (bind m (fun x => k))
  (at level 61, m at next level, right associativity).

(** The world after the store answered statement [q], leaving [table]. *)
Definition answered (q : Statement) (table : list Row) (w : World) : World :=
  {| users := table; sent := q :: sent w; faults := faults w;
     failed := failed w; uuids := uuids w; drawn := drawn w;
     clock := clock w; reads := reads w; NODE_ENV := NODE_ENV w |}.

(** The world after statement [q] ended in an error. *)
Definition refused (q : Statement) (w : World) : World :=
  {| users := users w; sent := q :: sent w; faults := faults w;
     failed := S (failed w); uuids := uuids w; drawn := drawn w;
     clock := clock w; reads := reads w; NODE_ENV := NODE_ENV w |}.

Section Primitives.
Context {P : Platform}.

(** [db.query(text, params)]: the statement is recorded as sent; a failure
    of the store or of the statement is thrown as the driver's error. *)
Definition db_query (q : Statement) : M (list Row) :=
  fun w =>
    match faults w (List.length (sent w)) with
    | Some msg => (Thrown (new_Error msg), refused q w)
    | None =>
        match exec q (users w) with
        | inl msg => (Thrown (new_Error msg), refused q w)
        | inr (rows, table) => (Returned rows, answered q table w)
        end
    end.

(** [uuidv4()]. *)
Definition uuidv4 : M value :=
  fun w =>
    (Returned (VStr (uuids w (drawn w))),
     {| users := users w; sent := sent w; faults := faults w;
        failed := failed w; uuids := uuids w; drawn := S (drawn w);
        clock := clock w; reads := reads w; NODE_ENV := NODE_ENV w |}).

(** [new Date().toISOString()]. *)
Definition now_ISOString : M value :=
  fun w =>
    (Returned (VStr (clock w (reads w))),
     {| users := users w; sent := sent w; faults := faults w;
        failed := failed w; uuids := uuids w; drawn := drawn w;
        clock := clock w; reads := S (reads w); NODE_ENV := NODE_ENV w |}).

End Primitives.

End Effect.

(** ** Request validation (middleware/validationMiddleware.ts) *)

Module Validation.

Import Errors Effect Joi.

(** The parts of an Express request the routes read. *)
Record Request : Type := { params : value; query : value; body : value }.

Local Notation "s |> f" := (f s) (at level 45, left associativity).

Definition createUserSchema : ObjectSchema :=
  [("name",
    string_ |> min 2 |> max 100 |> required
    |> messages [("string.empty", "Name is required");
                 ("string.min", "Name must be at least 2 characters");
                 ("string.max", "Name must be at most 100 characters")]);
   ("email",
    string_ |> email |> required
    |> messages [("string.empty", "Email is required");
                 ("string.email", "Invalid email format")]);
   ("age",
    number_ |> integer |> min 0 |> max 150 |> optional
    |> messages [("number.base", "Age must be a number");
                 ("number.min", "Age must be at least 0");
                 ("number.max", "Age must be at most 150")])].

Definition updateUserSchema : ObjectSchema :=
  [("name",
    string_ |> min 2 |> max 100 |> optional
    |> messages [("string.min", "Name must be at least 2 characters");
                 ("string.max", "Name must be at most 100 characters")]);
   ("email",
    string_ |> email |> optional
    |> messages [("string.email", "Invalid email format")]);
   ("age",
    number_ |> integer |> min 0 |> max 150 |> optional
    |> messages [("number.base", "Age must be a number");
                 ("number.min", "Age must be at least 0");
                 ("number.max", "Age must be at most 150")])].

Definition idParamsSchema : ObjectSchema :=
  [("id",
    string_ |> uuid |> required
    |> messages [("string.uuid", "Invalid ID format, must be UUID")])].

Definition paginationSchema : ObjectSchema :=
  [("page", number_ |> integer |> min 1 |> default (VInt 1) |> optional);
   ("limit",
    number_ |> integer |> min 1 |> max 100 |> default (VInt 10)
    |> optional)].

Definition double_quote : ascii := ascii_of_nat 34.

(** [s.replace] of every double quote by the empty string. *)
Fixpoint remove_quotes (s : string) : string :=
  match s with
  | String c r =>
      if Ascii.eqb c double_quote then remove_quotes r
      else String c (remove_quotes r)
  | EmptyString => EmptyString
  end.

(** [l.join(sep)]. *)
Fixpoint join (sep : string) (l : list string) : string :=
  match l with
  | [] => ""
  | [x] => x
  | x :: r => x ++ sep ++ join sep r
  end.

(** An entry of [validationErrors]. *)
Record Violation : Type := { field : string; message : string }.

Section Middleware.
Context {P : Platform}.

(** The list [validationErrors] that [validateRequest] computes from
    [error.details]; it is empty exactly when [error] is [undefined]. *)
Definition validationErrors (schema : ObjectSchema) (input : value)
  : list Violation :=
  map (fun detail => {| field := join "." (Joi.path detail);
                        message := remove_quotes (Joi.message detail) |})
      (validate schema input).

(** [validateRequest(schema, property)] applied to a request: [next()] is
    reached when there is no violation, a [ValidationError] is thrown
    otherwise. Joi's normalised value is not read, so the request keeps its
    raw input. *)
Definition validateRequest (schema : ObjectSchema)
  (property : Request -> value) (req : Request) : M unit :=
  match validationErrors schema (property req) with
  | [] => ret tt
  | errors =>
      throw (new_ValidationError
               (Some ("Validation failed: "
                      ++ join ", " (map message errors))))
  end.

End Middleware.

End Validation.

(** ** The user routes (routes/userRoutes.ts) *)

Module Routes.

Import Errors Store Effect Validation.

Section Handlers.
Context {P : Platform}.

(** [res.status(code).json(payload)]. *)
Definition respond (code : Z) (b : value) : M Response :=
  ret {| status := VInt code; payload := json b |}.

(** [rows[0]]. *)
Definition first_row (rows : list Row) : value :=
  match rows with
  | r :: _ => VObj r
  | [] => VUndefined
  end.

(** Reading a property of, or destructuring, [undefined] or [null] throws a
    [TypeError]. *)
Definition object_of (v : value) : M value :=
  match v with
  | VUndefined | VNull =>
      throw {| class := OtherError "TypeError";
               own := error_props
                        (VStr "Cannot read properties of undefined") |}
  | _ => ret v
  end.

(** A number that may be [NaN]; [NaN] is serialised as [null]. *)
Definition number (n : option Z) : value :=
  match n with
  | Some z => VInt z
  | None => VNull
  end.

Definition database_error (message : string) : object :=
  new_HttpError (VStr message) (Some 500) (Some "DATABASE_ERROR").

(** [router.get('/')]: the handler. *)
Definition list_users (req : Request) : M Response :=
  try_catch
    (let page := parseInt_or (Js.field "page" (query req)) 1 in
     let limit := parseInt_or (Js.field "limit" (query req)) 10 in
     let offset := (page - 1) * limit in
     countResult <- db_query CountUsers ;;
     row <- object_of (first_row countResult) ;;
     let total := parseInt (Js.field "count" row) in
     result <- db_query (SelectPage (Bare "createdAt") limit offset) ;;
     let totalPages := option_map (fun t => ceil_div t limit) total in
     respond 200
       (VObj [("data", VArr (map VObj result));
              ("pagination",
               VObj [("page", VInt page);
                     ("limit", VInt limit);
                     ("total", number total);
                     ("totalPages", number totalPages)])]))
    (fun _ => throw (database_error "Failed to fetch users")).

(** [router.get('/:id')]: the handler. *)
Definition get_user (req : Request) : M Response :=
  try_catch
    (result <- db_query (SelectById (Js.field "id" (params req))) ;;
     if Nat.eqb (List.length result) 0
     then throw (new_NotFoundError (Some "User not found"))
     else respond 200 (first_row result))
    (fun error =>
       if instanceof error NotFoundError then throw error
       else throw (database_error "Failed to fetch user")).

(** [router.post('/')]: the handler. *)
Definition create_user (req : Request) : M Response :=
  try_catch
    (b <- object_of (body req) ;;
     let name := Js.field "name" b in
     let email := Js.field "email" b in
     let age := Js.field "age" b in
     id <- uuidv4 ;;
     now <- now_ISOString ;;
     existingUser <- db_query (SelectIdByEmail email) ;;
     if Nat.ltb 0 (List.length existingUser)
     then throw (new_ConflictError (Some "Email already exists"))
     else
       result <- db_query
                   (Insert [Bare "id"; Bare "name"; Bare "email"; Bare "age";
                            Quoted "createdAt"; Quoted "updatedAt"]
                           [id; name; email; or age VNull; now; now]) ;;
       respond 201 (first_row result))
    (fun error =>
       if instanceof error ConflictError then throw error
       else throw (database_error "Failed to create user")).

(** The three conditional pushes onto [updates] and [values], with
    [paramCount] counting the placeholders. *)
Definition push_if_defined (column : Ident) (v : value)
  (acc : list (Ident * nat) * list value * nat)
  : list (Ident * nat) * list value * nat :=
  let '(updates, values, paramCount) := acc in
  if negb (strict_eq v VUndefined)
  then ((updates ++ [(column, paramCount)])%list,
        (values ++ [v])%list, S paramCount)
  else acc.

(** [router.put('/:id')]: the handler. *)
Definition update_user (req : Request) : M Response :=
  try_catch
    (b <- object_of (body req) ;;
     let name := Js.field "name" b in
     let email := Js.field "email" b in
     let age := Js.field "age" b in
     let id := Js.field "id" (params req) in
     now <- now_ISOString ;;
     existingUser <- db_query (SelectIdById id) ;;
     if Nat.eqb (List.length existingUser) 0
     then throw (new_NotFoundError (Some "User not found"))
     else
       _ <- (if truthy email
             then
               emailCheck <- db_query (SelectIdByEmailNotId email id) ;;
               if Nat.ltb 0 (List.length emailCheck)
               then throw (new_ConflictError (Some "Email already exists"))
               else ret tt
             else ret tt) ;;
       let '(updates, values, paramCount) :=
         push_if_defined (Bare "age") age
           (push_if_defined (Bare "email") email
              (push_if_defined (Bare "name") name ([], [id], 2%nat))) in
       if Nat.eqb (List.length updates) 0
       then throw (new_HttpError (VStr "No fields to update") (Some 400)
                                 (Some "NO_UPDATES"))
       else
         let updates :=
           (updates ++ [(Quoted "updatedAt", paramCount)])%list in
         let values := (values ++ [now])%list in
         result <- db_query (Update updates values) ;;
         if Nat.eqb (List.length result) 0
         then throw (new_NotFoundError (Some "User not found"))
         else respond 200 (first_row result))
    (fun error =>
       if instanceof error NotFoundError || instanceof error ConflictError
          || instanceof error HttpError
       then throw error
       else throw (database_error "Failed to update user")).

(** [router.delete('/:id')]: the handler. *)
Definition delete_user (req : Request) : M Response :=
  try_catch
    (result <- db_query (Delete (Js.field "id" (params req))) ;;
     if Nat.eqb (List.length result) 0
     then throw (new_NotFoundError (Some "User not found"))
     else respond 200
            (VObj [("message", VStr "User deleted successfully");
                   ("id", Js.field "id" (params req))]))
    (fun error =>
       if instanceof error NotFoundError then throw error
       else throw (database_error "Failed to delete user")).

(** A route as the application mounts it: the middlewares and the handler
    run in order, and whatever one of them throws (for the asynchronous
    handler, the rejection of its promise) is passed to [errorHandler], which
    answers in its place; that is the behaviour the tests of the routes
    expect of the framework. *)
Definition serve (pipeline : M Response) (w : World) : Response * World :=
  match pipeline w with
  | (Returned r, w') => (r, w')
  | (Thrown e, w') => (errorHandler (NODE_ENV w') e, w')
  end.

Definition GET_users (req : Request) : World -> Response * World :=
  serve (_ <- validateRequest paginationSchema query req ;;
         list_users req).

Definition GET_user (req : Request) : World -> Response * World :=
  serve (_ <- validateRequest idParamsSchema params req ;;
         get_user req).

Definition POST_user (req : Request) : World -> Response * World :=
  serve (_ <- validateRequest createUserSchema body req ;;
         create_user req).

Definition PUT_user (req : Request) : World -> Response * World :=
  serve (_ <- validateRequest idParamsSchema params req ;;
         _ <- validateRequest updateUserSchema body req ;;
         update_user req).

Definition DELETE_user (req : Request) : World -> Response * World :=
  serve (_ <- validateRequest idParamsSchema params req ;;
         delete_user req).

(** The routes of [router], by name. *)
Inductive Endpoint : Type :=
| ListUsers | GetUser | CreateUser | UpdateUser | DeleteUser.

Definition router (e : Endpoint) : Request -> World -> Response * World :=
  match e with
  | ListUsers => GET_users
  | GetUser => GET_user
  | CreateUser => POST_user
  | UpdateUser => PUT_user
  | DeleteUser => DELETE_user
  end.

(** The application serving requests one after the other. *)
Fixpoint run (reqs : list (Endpoint * Request)) (w : World)
  : list Response * World :=
  match reqs with
  | [] => ([], w)
  | (e, req) :: rest =>
      let (r, w1) := router e req w in
      let (rs, w2) := run rest w1 in
      (r :: rs, w2)
  end.

End Handlers.

End Routes.

(** ** A concrete platform and concrete worlds

    Closed statements need an instance of [Platform] and a [World] to run
    in. The grammars below are simple stand-ins for Joi's: an email has text
    on both sides of an at sign, a GUID is 36 characters of hexadecimal
    digits with hyphens at the four usual places, and a number is written as
    a decimal integer. *)

Module Sample.

Import Errors Store Effect Validation Routes.

Fixpoint all_chars (f : ascii -> bool) (s : string) : bool :=
  match s with
  | String c r => f c && all_chars f r
  | EmptyString => true
  end.

Definition is_hex (c : ascii) : bool :=
  match digit 16 c with Some _ => true | None => false end.

Definition sample_isEmail (s : string) : bool :=
  match index 0 "@" s with
  | Some i =>
      Nat.ltb 0 i && Nat.ltb (S i) (String.length s)
      && all_chars (fun c => negb (is_space c)) s
  | None => false
  end.

Definition sample_isGuid (s : string) : bool :=
  Nat.eqb (String.length s) 36
  && String.eqb (substring 8 1 s) "-" && String.eqb (substring 13 1 s) "-"
  && String.eqb (substring 18 1 s) "-" && String.eqb (substring 23 1 s) "-"
  && all_chars is_hex (substring 0 8 s) && all_chars is_hex (substring 9 4 s)
  && all_chars is_hex (substring 14 4 s)
  && all_chars is_hex (substring 19 4 s)
  && all_chars is_hex (substring 24 12 s).

Definition sample_numberOfString (s : string) : option num :=
  match NilZero.int_of_string s with
  | Some d => Some (Int (Z.of_int d))
  | None => None
  end.

Definition sample : Platform := {|
  isEmail := sample_isEmail;
  isGuid := sample_isGuid;
  numberOfString := sample_numberOfString;
  defaultMessage := fun code key =>
    String double_quote (key ++ String double_quote (" fails " ++ code));
  stackTrace := fun m => "Error: " ++ m
|}.

(** An id generator that never repeats: the n-th id has n + 1 characters. *)
Fixpoint sample_uuid (n : nat) : string :=
  match n with
  | O => "a"
  | S k => String "a" (sample_uuid k)
  end.

Definition user (id name email : string) (age : value) (at_ : string) : Row :=
  [("id", VStr id); ("name", VStr name); ("email", VStr email);
   ("age", age); ("createdAt", VStr at_); ("updatedAt", VStr at_)].

Definition world (table : list Row) (faulty : nat -> option string)
  (env : value) : World :=
  {| users := table; sent := []; faults := faulty; failed := 0;
     uuids := sample_uuid; drawn := 0;
     clock := fun _ => "2024-01-01T00:00:00.000Z"; reads := 0;
     NODE_ENV := env |}.

Definition healthy : nat -> option string := fun _ => None.

Definition unreachable : nat -> option string :=
  fun _ => Some "connect ECONNREFUSED".

Definition id1 : string := "123e4567-e89b-12d3-a456-426614174001".
Definition id2 : string := "123e4567-e89b-12d3-a456-426614174002".

Definition alice : Row :=
  user id1 "Alice Johnson" "alice.johnson@example.com" (VInt 28)
       "2024-01-01T00:00:00.000Z".

(** The five users of the pagination test. *)
Definition five_users : list Row :=
  map (fun i =>
         user ("123e4567-e89b-12d3-a456-42661417400" ++ string_of_Z i)
              ("User " ++ string_of_Z i)
              ("user" ++ string_of_Z i ++ "@example.com")
              (VInt (20 + i))
              ("2024-01-01T00:00:00.00" ++ string_of_Z i ++ "Z"))
      [1; 2; 3; 4; 5].

Definition request (p q b : list (string * value)) : Request :=
  {| params := VObj p; query := VObj q; body := VObj b |}.

End Sample.

(** ** Vocabulary of the statements *)

Module Spec.

Import Errors Store Effect Validation Routes.

(** The classes of the taxonomy: [HttpError] and its subclasses. *)
Definition taxonomy (c : Class) : bool :=
  instanceof {| class := c; own := [] |} HttpError.

Definition generic : string := "Something went wrong".

(** The envelope [{success: false, error: message, code?: code}]. *)
Definition envelope (message : value) (code : value) : value :=
  VObj ([("success", VBool false); ("error", message)]
        ++ match code with
           | VUndefined => []
           | c => [("code", c)]
           end).

(** The response the specification describes for an error that reaches the
    responder: the error's own status, code and message for a member of the
    taxonomy; otherwise a 500 whose message is the constant in production
    and the error's message elsewhere. *)
Definition described_response (NODE_ENV : value) (err : object) : Response :=
  if instanceof err HttpError
  then {| status := get err "statusCode";
          payload := envelope (get err "message") (get err "code") |}
  else {| status := VInt 500;
          payload := envelope
                       (if strict_eq NODE_ENV (VStr "production")
                        then VStr generic
                        else get err "message")
                       (VStr "INTERNAL_SERVER_ERROR") |}.

(** The message the responder shows for an error outside the taxonomy. *)
Definition shown_message (NODE_ENV : value) (err : object) : string :=
  if strict_eq NODE_ENV (VStr "production") then generic
  else match get err "message" with
       | VUndefined => generic
       | m => if String.eqb (toString m) "" then generic else toString m
       end.

(** The [code] member of an error envelope. *)
Definition code_of (r : Response) : value := Js.field "code" (payload r).

(** The value is a string of the email grammar. *)
Definition matches_email {P : Platform} (v : value) : bool :=
  match v with
  | VStr s => isEmail s
  | _ => false
  end.

(** The store answers the next [n] statements without a failure of its
    own. *)
Definition answers (w : World) (n : nat) : Prop :=
  forall k, (k < n)%nat -> faults w (List.length (sent w) + k) = None.

(** The ids [uuidv4()] has returned so far. *)
Definition issued (w : World) : list string :=
  map (uuids w) (seq 0 (drawn w)).

(** The ids of the users the creations among the requests returned: the
    [id] of every 201 response to a POST. *)
Definition created_id (e : Endpoint) (r : Response) : list value :=
  match e with
  | CreateUser =>
      if strict_eq (status r) (VInt 201) then [Js.field "id" (payload r)]
      else []
  | _ => []
  end.

Fixpoint created_ids (es : list Endpoint) (rs : list Response) : list value :=
  match es, rs with
  | e :: es', r :: rs' => (created_id e r ++ created_ids es' rs')%list
  | _, _ => []
  end.

(** The row a creation with body [b] inserts in world [w]: the next id of
    the generator, the body's fields, and one reading of the clock. *)
Definition created_row (b : list (string * value)) (w : World) : Row :=
  [("id", VStr (uuids w (drawn w)));
   ("name", Js.field "name" (VObj b));
   ("email", Js.field "email" (VObj b));
   ("age", or (Js.field "age" (VObj b)) VNull);
   ("createdAt", VStr (clock w (reads w)));
   ("updatedAt", VStr (clock w (reads w)))].

(** Nothing stands in the way of a creation: no stored user has the id the
    generator returns next or the email of the body, and the store answers
    the two statements of the route. *)
Definition can_create (b : list (string * value)) (w : World) : Prop :=
  existsb (has_id (VStr (uuids w (drawn w)))) (users w) = false
  /\ existsb (has_email (Js.field "email" (VObj b))) (users w) = false
  /\ answers w 2.





End Spec.

(** ** The rest of the application (app.ts and what it mounts) *)

Module App.

Import Errors Store Effect Validation Routes.

(** *** The request log (middleware/loggerMiddleware.ts) *)

Inductive Level : Type := LevelWarn | LevelError | LevelInfo.

(** The method of [logger] that the [finish] listener calls for a response
    with status [statusCode]. *)
Definition log_level (statusCode : Z) : Level :=
  if 400 <=? statusCode then LevelWarn
  else if 500 <=? statusCode then LevelError
  else LevelInfo.

Section Handlers.
Context {P : Platform}.

(** *** Unmatched routes (middleware/errorHandler.ts) *)

(** [notFoundHandler(req, res, next)]: the error it hands to [next]. *)
Definition notFoundHandler (originalUrl : string) : M Response :=
  throw (new_NotFoundError (Some ("Route " ++ originalUrl ++ " not found"))).

(** A request no route matches, as the application answers it. *)
Definition unmatched (originalUrl : string) : World -> Response * World :=
  serve (notFoundHandler originalUrl).

(** *** Health (database.ts and routes/healthRoutes.ts)

    [select_ping] stands for [this.query('SELECT 1 as ping')], whatever the
    store makes of it: rows, or an error thrown. *)

Section Health.
Variable select_ping : M (list Row).

(** [db.healthCheck()]. *)
Definition healthCheck : M bool :=
  try_catch
    (result <- select_ping ;;
     row <- object_of (first_row result) ;;
     ret (strict_eq (Js.field "ping" row) (VInt 1)))
    (fun _ => ret false).

(** [process.uptime()] and the fields of [process.memoryUsage()], in
    seconds and in bytes. *)
Variable uptime : num.
Variables rss heapTotal heapUsed external : Z.

(** [Math.round(bytes / 1024 / 1024)] for a count of bytes: the division
    by a power of two is exact, and halves round upwards. *)
Definition megabytes (bytes : Z) : Z := (bytes + 524288) / 1048576.

Definition getMemoryUsage : value :=
  VObj [("rss", VInt (megabytes rss));
        ("heapTotal", VInt (megabytes heapTotal));
        ("heapUsed", VInt (megabytes heapUsed));
        ("external", VInt (megabytes external))].

(** [res.status(code).json(payload)] in the health routes. *)
Definition send (code : Z) (b : value) : Response :=
  {| status := VInt code; payload := json b |}.

(** [router.get('/')] of the health routes: the handler. The calls to
    [logger] and the readings of [Date.now()] that feed them are left
    out. *)
Definition health : M Response :=
  try_catch
    (databaseHealth <- healthCheck ;;
     timestamp <- now_ISOString ;;
     let healthData :=
       VObj [("status", VStr (if databaseHealth then "healthy"
                              else "unhealthy"));
             ("timestamp", timestamp);
             ("uptime", VNum uptime);
             ("service", VStr "user-profile-service");
             ("database", VStr (if databaseHealth then "connected"
                                else "disconnected"));
             ("memory", getMemoryUsage)] in
     let statusCode := if databaseHealth then 200 else 503 in
     ret (send statusCode healthData))
    (fun _ =>
       timestamp <- now_ISOString ;;
       ret (send 503
              (VObj [("status", VStr "unhealthy");
                     ("timestamp", timestamp);
                     ("uptime", VNum uptime);
                     ("service", VStr "user-profile-service");
                     ("database", VStr "error")]))).

(** [router.get('/ready')]: the handler, which has no [catch]. *)
Definition ready : M Response :=
  isReady <- healthCheck ;;
  ret (if isReady then send 200 (VObj [("status", VStr "ready")])
       else send 503 (VObj [("status", VStr "not ready")])).

(** [router.get('/live')]: the handler. *)
Definition live : M Response :=
  ret (send 200 (VObj [("status", VStr "alive")])).

Definition GET_health : World -> Response * World := serve health.

Definition GET_ready : World -> Response * World := serve ready.

Definition GET_live : World -> Response * World := serve live.

End Health.

End Handlers.

(** *** The container's probe (healthcheck.js) *)

(** What becomes of the probe's request to [/health]: a response with its
    status, an error of the connection, or a timeout. *)
Inductive Probe : Type :=
| Responded (statusCode : value)
| Errored (message : string)
| TimedOut.

(** The code the probe exits with. *)
Definition healthcheck (p : Probe) : Z :=
  match p with
  | Responded statusCode =>
      if strict_eq statusCode (VInt 200) then 0 else 1
  | Errored _ => 1
  | TimedOut => 1
  end.

End App.

(** ** Seeding (database/seed.ts) *)

Module Seed.

Import Errors Store Effect Validation Routes.

Section Script.
Context {P : Platform}.

(** [db.connect()] and [db.close()]: the pool's own business, of which the
    script sees only whether they throw, and what. *)
Definition pool (failure : option string) : M unit :=
  match failure with
  | None => ret tt
  | Some message => throw (new_Error message)
  end.

(** One entry of [sampleUsers]: the id is drawn and the clock is read
    twice when the array literal is evaluated. *)
Definition sample_user (name email : string) (age : Z) : M (list value) :=
  id <- uuidv4 ;;
  createdAt <- now_ISOString ;;
  updatedAt <- now_ISOString ;;
  ret [id; VStr name; VStr email; VInt age; createdAt; updatedAt].

(** The body of the [for] loop; the statement has no [RETURNING] clause
    and its result is not read. *)
Definition insert_user (user : list value) : M unit :=
  _ <- db_query (Insert [Bare "id"; Bare "name"; Bare "email"; Bare "age";
                         Quoted "createdAt"; Quoted "updatedAt"] user) ;;
  ret tt.

(** [n > 0] for the result of [parseInt]; a comparison with [NaN] is
    false. *)
Definition greater_than_zero (n : option Z) : bool :=
  match n with
  | Some z => 0 <? z
  | None => false
  end.

(** [seed()], returning the code [process.exit] is called with;
    [connecting] and [closing] are the errors of the pool, if any. *)
Definition seed (connecting closing : option string) : M Z :=
  try_catch
    (_ <- pool connecting ;;
     countResult <- db_query CountUsers ;;
     row <- object_of (first_row countResult) ;;
     if greater_than_zero (parseInt (Js.field "count" row))
     then
       _ <- pool closing ;;
       ret 0
     else
       alice <- sample_user "Alice Johnson" "alice.johnson@example.com" 28 ;;
       bob <- sample_user "Bob Smith" "bob.smith@example.com" 35 ;;
       carol <- sample_user "Carol Williams" "carol.williams@example.com"
                            42 ;;
       _ <- insert_user alice ;;
       _ <- insert_user bob ;;
       _ <- insert_user carol ;;
       _ <- pool closing ;;
       ret 0)
    (fun _ => ret 1).

(** The script run to its end: the exit code and the world it leaves. A
    rejection nothing handles ends the process with code 1. *)
Definition run_seed (connecting closing : option string) (w : World)
  : Z * World :=
  match seed connecting closing w with
  | (Returned code, w') => (code, w')
  | (Thrown _, w') => (1, w')
  end.

End Script.

End Seed.

(** ** Vocabulary of the further properties *)

Module Terms.

Import Errors Store Effect Validation Routes Spec.

Section Requests.
Context {P : Platform}.

(** The violations the middlewares of a route find in a request, in the
    order the middlewares run. *)
Definition violations (e : Endpoint) (req : Request) : list Violation :=
  match e with
  | ListUsers => validationErrors paginationSchema (query req)
  | GetUser | DeleteUser => validationErrors idParamsSchema (params req)
  | CreateUser => validationErrors createUserSchema (body req)
  | UpdateUser =>
      (validationErrors idParamsSchema (params req)
       ++ validationErrors updateUserSchema (body req))%list
  end.

End Requests.

(** An error response of the user routes: its status, and the envelope
    with the constant message and a code. *)
Definition error_response (code : Z) (name : string) : Response :=
  {| status := VInt code; payload := envelope (VStr generic) (VStr name) |}.

Definition validation_error : Response :=
  error_response 400 "VALIDATION_ERROR".

Definition not_found : Response := error_response 404 "NOT_FOUND".

Definition conflict : Response := error_response 409 "CONFLICT".

(** The error responses of the user routes. *)
Definition error_responses : list Response :=
  [validation_error; error_response 400 "NO_UPDATES"; not_found; conflict;
   error_response 500 "DATABASE_ERROR"].

(** The [db.query] calls a handler can reach on one path. *)
Definition statements (e : Endpoint) : nat :=
  match e with
  | ListUsers => 2
  | GetUser => 1
  | CreateUser => 2
  | UpdateUser => 3
  | DeleteUser => 1
  end.

(** The status of the handler's own [res.status(...)]. *)
Definition success (e : Endpoint) : Z :=
  match e with
  | CreateUser => 201
  | _ => 200
  end.

(** The response of the delete route to a deletion that happened. *)
Definition deleted (id : value) : Response :=
  {| status := VInt 200;
     payload := VObj [("message", VStr "User deleted successfully");
                      ("id", id)] |}.

(** The handler's conditional assignments of an update, applied to a
    row. *)
Definition set_if_defined (c : string) (v : value) (r : Row) : Row :=
  if strict_eq v VUndefined then r else assign c v r.

Definition updated_row (b : value) (now : value) (r : Row) : Row :=
  assign "updatedAt" now
    (set_if_defined "age" (Js.field "age" b)
       (set_if_defined "email" (Js.field "email" b)
          (set_if_defined "name" (Js.field "name" b) r))).

(** No two rows of the table share an id or an email. *)
Fixpoint distinct (table : list Row) : bool :=
  match table with
  | [] => true
  | r :: t => negb (collides r t) && distinct t
  end.

(** What [healthCheck] makes of the answer to its query. *)
Definition pong (answer : Outcome (list Row)) : bool :=
  match answer with
  | Returned (row :: _) => strict_eq (column "ping" row) (VInt 1)
  | _ => false
  end.

(** The world after [ids] draws from the generator and [ticks] readings of
    the clock. *)
Definition advanced (ids ticks : nat) (w : World) : World :=
  {| users := users w; sent := sent w; faults := faults w;
     failed := failed w; uuids := uuids w; drawn := (ids + drawn w)%nat;
     clock := clock w; reads := (ticks + reads w)%nat;
     NODE_ENV := NODE_ENV w |}.

(** The i-th user of the seeding script, for the ids and the clock of
    [w]. *)
Definition seeded_user (w : World) (i : nat) (name email : string) (age : Z)
  : Row :=
  [("id", VStr (uuids w (i + drawn w)%nat));
   ("name", VStr name); ("email", VStr email); ("age", VInt age);
   ("createdAt", VStr (clock w (2 * i + reads w)%nat));
   ("updatedAt", VStr (clock w (S (2 * i) + reads w)%nat))].

Definition seeded (w : World) : list Row :=
  [seeded_user w 0 "Alice Johnson" "alice.johnson@example.com" 28;
   seeded_user w 1 "Bob Smith" "bob.smith@example.com" 35;
   seeded_user w 2 "Carol Williams" "carol.williams@example.com" 42].

End Terms.

(** * Properties *)

Import Errors Store Effect Validation Routes Spec.

(** ** The boundary responder *)

Section Responder.
Context {P : Platform}.

Lemma spread_construct c message statusCode code :
  spread_object (construct c message statusCode code) =
  {| class := PlainObject;
     own := filter (fun kp => enumerable (snd kp))
              (own (construct c VUndefined statusCode code)) |}.
Proof.
  unfold spread_object, construct, error_props; cbn.
  destruct message; reflexivity.
Qed.

Lemma or_string t d :
  or (VStr t) (VStr d) = VStr (if String.eqb t "" then d else t).
Proof. unfold or; cbn. destruct (String.eqb t ""); reflexivity. Qed.

Lemma taxonomy_instanceof c message statusCode code :
  taxonomy c = true ->
  instanceof (construct c message statusCode code) HttpError = true.
Proof. destruct c; cbn; intros H; try discriminate H; reflexivity. Qed.

End Responder.

Section ResponderClaims.
Context {P : Platform}.

(** C1 (as amended). For an error of the taxonomy, built by the constructor
    of [HttpError] or of a subclass, the response carries the error's
    [statusCode] (500 when that is zero), and its body is the envelope
    [{success: false, error, code?}] with the error's [code] when it is a
    non-empty string and with some message. For any other error the status
    is 500, the code is [INTERNAL_SERVER_ERROR], the message is the constant
    in production or when the error has no message, and the error's own
    message otherwise; the body is the envelope, followed by a [stack]
    member when [NODE_ENV] is [development]. *)
Theorem errorHandler_response (NODE_ENV : value) :
  (forall c message statusCode code,
      taxonomy c = true ->
      let r := errorHandler NODE_ENV (construct c message statusCode code) in
      let sc := match statusCode with Some n => n | None => 500 end in
      status r = VInt (if sc =? 0 then 500 else sc)
      /\ exists m,
           payload r =
           envelope (VStr m)
                    (match code with
                     | Some s => if String.eqb s "" then VUndefined
                                 else VStr s
                     | None => VUndefined
                     end))
  /\ (forall err,
         instanceof err HttpError = false ->
         let r := errorHandler NODE_ENV err in
         status r = VInt 500
         /\ exists trace,
              payload r =
              VObj (spread (envelope (VStr (shown_message NODE_ENV err))
                                     (VStr "INTERNAL_SERVER_ERROR"))
                    ++ if strict_eq NODE_ENV (VStr "development")
                       then [("stack", VStr trace)]
                       else [])).
Proof.
  split.
  - intros c message statusCode code Hc r sc.
    subst r. unfold errorHandler.
    rewrite (taxonomy_instanceof _ _ _ _ Hc), spread_construct.
    unfold construct; cbn. fold sc. clearbody sc.
    destruct code as [s|]; cbn.
    + unfold or, and; cbn.
      destruct (sc =? 0), (String.eqb s ""),
        (strict_eq NODE_ENV (VStr "development")); cbn;
        (split; [reflexivity | exists generic; reflexivity]).
    + unfold or, and; cbn.
      destruct (sc =? 0), (strict_eq NODE_ENV (VStr "development")); cbn;
        (split; [reflexivity | exists generic; reflexivity]).
  - intros err Herr r. subst r. unfold errorHandler, shown_message.
    rewrite Herr. cbn.
    destruct (strict_eq NODE_ENV (VStr "production")) eqn:Hp.
    + assert (Hd : strict_eq NODE_ENV (VStr "development") = false).
      { destruct NODE_ENV; try reflexivity. cbn in *.
        apply String.eqb_eq in Hp. subst s. reflexivity. }
      rewrite Hd. cbn. split; [reflexivity|].
      exists "". reflexivity.
    + destruct (strict_eq NODE_ENV (VStr "development"));
        destruct (get err "message") as [| |b|n|s|l|l] eqn:Hm;
        unfold new_HttpError, construct, error_props;
        cbn -[toString or]; rewrite ?or_string; cbn -[toString];
        (split; [reflexivity|]);
        first [ eexists; reflexivity | exists ""; reflexivity ].
Qed.

End ResponderClaims.

Section ResponderExamples.
#[local] Existing Instance Sample.sample.

(** The theorem above at a [NotFoundError] in production and at a plain
    [Error] in development. *)
Lemma errorHandler_response_witness :
  taxonomy NotFoundError = true
  /\ status (errorHandler (VStr "production")
               (new_NotFoundError (Some "User not found"))) = VInt 404
  /\ instanceof (new_Error "boom") HttpError = false
  /\ status (errorHandler (VStr "development")
               (new_Error "boom")) = VInt 500.
Proof.
  destruct (errorHandler_response (VStr "production"))
    as [Htax _].
  destruct (errorHandler_response (VStr "development"))
    as [_ Hother].
  split; [reflexivity|]. split.
  - exact (proj1 (Htax NotFoundError (VStr "User not found") (Some 404)
                       (Some "NOT_FOUND") eq_refl)).
  - split; [reflexivity|].
    exact (proj1 (Hother (new_Error "boom") eq_refl)).
Defined.

(** C1 as the specification states it fails in three ways. In development
    the body of a generic 500 carries a [stack] member besides the envelope.
    Outside production an error with an empty message is answered with the
    constant text. And the message of a taxonomy error does not reach the
    body: the copy [{...err}] holds the enumerable properties only, and
    [message] is not one of them. *)
Lemma errorHandler_not_as_described :
  errorHandler (VStr "development") (new_Error "boom")
  <> described_response (VStr "development") (new_Error "boom")
  /\ errorHandler VUndefined (new_Error "")
     <> described_response VUndefined (new_Error "")
  /\ errorHandler (VStr "production")
       (new_ConflictError (Some "Email already exists"))
     <> described_response (VStr "production")
          (new_ConflictError (Some "Email already exists")).
Proof.
  repeat split; intro H; vm_compute in H; discriminate H.
Qed.

End ResponderExamples.

(** ** Stepping through a route *)

Section Steps.
Context {P : Platform}.

(** A statement is answered, or it ends in the driver's error. *)
Lemma db_query_cases q w :
  (exists rows table,
      exec q (users w) = inr (rows, table)
      /\ db_query q w = (Returned rows, answered q table w))
  \/ (exists msg, db_query q w = (Thrown (new_Error msg), refused q w)).
Proof.
  unfold db_query.
  destruct (faults w (List.length (sent w))) as [msg|].
  - right. eexists. reflexivity.
  - destruct (exec q (users w)) as [msg|[rows table]] eqn:E.
    + right. eexists. reflexivity.
    + left. exists rows, table. split; reflexivity.
Qed.

Lemma db_query_answered q w rows table :
  faults w (List.length (sent w)) = None ->
  exec q (users w) = inr (rows, table) ->
  db_query q w = (Returned rows, answered q table w).
Proof. intros F E. unfold db_query. rewrite F, E. reflexivity. Qed.

Lemma answers_first w n :
  answers w (S n) -> faults w (List.length (sent w)) = None.
Proof. intros H. rewrite <- (H 0%nat); [f_equal|]; lia. Qed.

Lemma answers_second w n :
  answers w (S (S n)) -> faults w (S (List.length (sent w))) = None.
Proof. intros H. rewrite <- (H 1%nat); [f_equal|]; lia. Qed.

Lemma answers_next w n q table :
  answers w (S n) -> answers (answered q table w) n.
Proof.
  intros H k Hk. cbn. rewrite <- (H (S k)); [f_equal|]; lia.
Qed.

Lemma no_row_iff {A : Type} (f : Row -> bool) (g : Row -> A) l :
  Nat.eqb (List.length (map g (filter f l))) 0 = negb (existsb f l).
Proof.
  induction l as [|r l IH]; cbn; [reflexivity|].
  destruct (f r); cbn; [reflexivity | exact IH].
Qed.

Lemma some_row_iff {A : Type} (f : Row -> bool) (g : Row -> A) l :
  Nat.ltb 0 (List.length (map g (filter f l))) = existsb f l.
Proof.
  induction l as [|r l IH]; cbn; [reflexivity|].
  destruct (f r); cbn; [reflexivity | exact IH].
Qed.

End Steps.

(** A store without faults answers every statement. *)
Lemma healthy_answers table env n :
  answers (Sample.world table Sample.healthy env) n.
Proof. intros k _. reflexivity. Qed.

(** Case analysis on the next statement of the goal. *)
Ltac query_cases :=
  match goal with
  | |- context [db_query ?q ?w0] =>
      let rows := fresh "rows" in
      let table := fresh "table" in
      let E := fresh "E" in
      let Q := fresh "Q" in
      let msg := fresh "msg" in
      destruct (db_query_cases q w0) as [(rows & table & E & Q) | (msg & Q)];
      rewrite Q; clear Q
  end.

(** The request is over: read the response off the equation. *)
Ltac answer :=
  let H := fresh "H" in
  cbn; intros H; inversion H; subst; clear H; cbn;
  first [ congruence | intros _; split; reflexivity ].

(** ** Errors of the taxonomy on their way out *)

Section TaxonomyResponses.
Context {P : Platform}.

Lemma instanceof_construct c message statusCode code C :
  instanceof (construct c message statusCode code) C
  = instanceof {| class := c; own := [] |} C.
Proof. reflexivity. Qed.

(** What the responder answers to an error of the taxonomy whose status is
    not zero and whose code is not empty: the status and the code of the
    error, and the constant text in place of its message, which the copy
    [{...err}] does not hold. *)
Lemma errorHandler_construct env c message sc code :
  taxonomy c = true ->
  (sc =? 0) = false ->
  String.eqb code "" = false ->
  errorHandler env (construct c message (Some sc) (Some code))
  = {| status := VInt sc;
       payload := envelope (VStr generic) (VStr code) |}.
Proof.
  intros Hc Hsc Hcode. unfold errorHandler.
  rewrite (taxonomy_instanceof _ _ _ _ Hc), spread_construct.
  unfold construct; cbn. unfold or, and; cbn. rewrite Hsc, Hcode; cbn.
  destruct (strict_eq env (VStr "development")); reflexivity.
Qed.

End TaxonomyResponses.

(** The route ended in an error of the taxonomy: let the catch clause and
    the responder run. *)
Ltac respond_error :=
  unfold database_error;
  unfold new_HttpError, new_NotFoundError, new_ConflictError,
    new_ValidationError, default;
  cbn -[errorHandler construct instanceof];
  rewrite ?instanceof_construct;
  cbn -[errorHandler construct];
  rewrite errorHandler_construct by reflexivity;
  cbn.

(** ** Validation *)

Section Validating.
Context {P : Platform}.

(** Every code Joi reports for a declared key becomes a violation on that
    key: validation does not stop at the first failure. *)
Lemma code_is_reported schema b key s c :
  In (key, s) schema ->
  In c (Joi.codes s (Js.field key (VObj b))) ->
  In {| field := key; message := remove_quotes (Joi.render key s c) |}
     (validationErrors schema (VObj b)).
Proof.
  intros Hk Hc. unfold validationErrors, Joi.validate.
  apply in_map_iff.
  exists {| Joi.path := [key]; Joi.type := c;
            Joi.message := Joi.render key s c |}.
  split; [reflexivity|].
  apply in_flat_map. exists (key, s). split; [exact Hk|].
  unfold Joi.details_of_key. cbn [fst snd].
  apply in_map_iff. exists c. split; [reflexivity | exact Hc].
Qed.

Lemma failing_key_is_reported schema b key s :
  In (key, s) schema ->
  Joi.codes s (Js.field key (VObj b)) <> [] ->
  exists v, In v (validationErrors schema (VObj b)) /\ field v = key.
Proof.
  intros Hk Hc.
  destruct (Joi.codes s (Js.field key (VObj b))) as [|c l] eqn:E;
    [contradiction|].
  eexists. split.
  - apply (code_is_reported schema b key s c Hk). rewrite E. left.
    reflexivity.
  - reflexivity.
Qed.

(** The violations, key by key in the order of the schema, one for each
    code. *)
Lemma violations_by_key schema b :
  map field (validationErrors schema (VObj b))
  = flat_map (fun ks => map (fun _ => fst ks)
                            (Joi.codes (snd ks) (Js.field (fst ks) (VObj b))))
             schema.
Proof.
  unfold validationErrors, Joi.validate.
  induction schema as [|[k s] rest IH]; [reflexivity|].
  cbn [flat_map fst snd]. rewrite !map_app, IH. f_equal.
  unfold Joi.details_of_key. rewrite !map_map. reflexivity.
Qed.

(** A value outside the email grammar breaks the rules of the [email] key
    of [createUserSchema]. *)
Lemma bad_email_has_codes v s :
  In ("email", s) createUserSchema ->
  matches_email v = false ->
  Joi.codes s v <> [].
Proof.
  intros Hin Hv.
  assert (Hs : s = snd (nth 1 createUserSchema ("", Joi.string_))).
  { cbn in Hin. destruct Hin as [H|[H|[H|[]]]];
      inversion H; reflexivity. }
  subst s. destruct v as [| |x|n|x|l|l]; cbn; try discriminate.
  destruct (String.eqb x ""); cbn; [discriminate|].
  cbn in Hv. rewrite Hv. discriminate.
Qed.

(** C3. For a body whose email is not a string of the email grammar:
    [validateRequest] computes a list of violations that is not empty and
    holds a violation on the field [email]; every declared field whose
    value breaks its rules has a violation in that same list; and the POST
    is answered 400 [VALIDATION_ERROR] with the world as it was, the store
    never called. *)
Theorem invalid_email_is_reported req b w :
  body req = VObj b ->
  matches_email (Js.field "email" (VObj b)) = false ->
  validationErrors createUserSchema (body req) <> []
  /\ (exists v, In v (validationErrors createUserSchema (body req))
                /\ field v = "email")
  /\ (forall key s,
         In (key, s) createUserSchema ->
         Joi.codes s (Js.field key (VObj b)) <> [] ->
         exists v, In v (validationErrors createUserSchema (body req))
                   /\ field v = key)
  /\ let (r, w') := POST_user req w in
     status r = VInt 400
     /\ code_of r = VStr "VALIDATION_ERROR"
     /\ w' = w.
Proof.
  intros Hb He. rewrite Hb.
  assert (Hall : forall key s,
             In (key, s) createUserSchema ->
             Joi.codes s (Js.field key (VObj b)) <> [] ->
             exists v, In v (validationErrors createUserSchema (VObj b))
                       /\ field v = key)
    by (intros key s; apply failing_key_is_reported).
  assert (Hemail : exists v, In v (validationErrors createUserSchema (VObj b))
                             /\ field v = "email").
  { apply (Hall "email" (snd (nth 1 createUserSchema ("", Joi.string_)))).
    - right. left. reflexivity.
    - apply bad_email_has_codes; [right; left; reflexivity | exact He]. }
  assert (Hne : validationErrors createUserSchema (VObj b) <> []).
  { destruct Hemail as (v & Hv & _). intros E. rewrite E in Hv.
    exact Hv. }
  split; [exact Hne|]. split; [exact Hemail|]. split; [exact Hall|].
  unfold POST_user, serve, bind, validateRequest. rewrite Hb.
  destruct (validationErrors createUserSchema (VObj b)) as [|v l];
    [contradiction|].
  respond_error. repeat split.
Qed.

(** The same on the update route, where the email is optional: an email
    that is present and outside the grammar is reported, and the PUT is
    answered 400 [VALIDATION_ERROR] with the world as it was. *)
Lemma invalid_email_on_update req b w :
  body req = VObj b ->
  validationErrors idParamsSchema (params req) = [] ->
  Js.field "email" (VObj b) <> VUndefined ->
  matches_email (Js.field "email" (VObj b)) = false ->
  (exists v, In v (validationErrors updateUserSchema (body req))
             /\ field v = "email")
  /\ let (r, w') := PUT_user req w in
     status r = VInt 400
     /\ code_of r = VStr "VALIDATION_ERROR"
     /\ w' = w.
Proof.
  intros Hb Hid Hdef He. rewrite Hb.
  assert (Hemail : exists v, In v (validationErrors updateUserSchema (VObj b))
                             /\ field v = "email").
  { apply (failing_key_is_reported updateUserSchema b "email"
             (snd (nth 1 updateUserSchema ("", Joi.string_)))).
    - right. left. reflexivity.
    - destruct (Js.field "email" (VObj b)) as [| |x|n|x|l|l]; cbn;
        try discriminate; [contradiction|].
      destruct (String.eqb x ""); cbn; [discriminate|].
      cbn in He. rewrite He. discriminate. }
  split; [exact Hemail|].
  unfold PUT_user, serve, bind, validateRequest. rewrite Hid, Hb.
  destruct (validationErrors updateUserSchema (VObj b)) as [|v l].
  - destruct Hemail as (v & [] & _).
  - respond_error. repeat split.
Qed.

End Validating.

Section ValidatingExamples.
#[local] Existing Instance Sample.sample.

(** The theorem above at the body of the validation tests; the empty name,
    the email and the age are reported together. *)
Lemma invalid_email_is_reported_witness :
  let b := [("name", VStr ""); ("email", VStr "invalid-email");
            ("age", VInt 200)] in
  let req := Sample.request [] [] b in
  let w := Sample.world [Sample.alice] Sample.healthy VUndefined in
  matches_email (Js.field "email" (VObj b)) = false
  /\ map field (validationErrors createUserSchema (body req))
     = ["name"; "email"; "age"]
  /\ status (fst (POST_user req w)) = VInt 400
  /\ snd (POST_user req w) = w.
Proof.
  intros b req w.
  pose proof (invalid_email_is_reported req b w eq_refl eq_refl)
    as (_ & _ & _ & H).
  destruct (POST_user req w) as [r w'].
  destruct H as (Hs & _ & Hw).
  split; [reflexivity|]. split; [reflexivity|].
  split; [exact Hs | exact Hw].
Defined.

End ValidatingExamples.

(** ** Listing users *)

Section DecimalRoundTrip.

(** The count arrives as decimal text; [parseInt] reads it back. *)

Lemma digits_acc d p :
  digits 10 (NilEmpty.string_of_uint d) (Some (Z.pos p))
  = Some (Z.pos (Pos.of_uint_acc d p)).
Proof.
  revert p. induction d; intros p; cbn [NilEmpty.string_of_uint digits Pos.of_uint_acc];
    [reflexivity|..];
    (match goal with
     | |- context [digit 10 ?c] =>
         let v := eval vm_compute in (digit 10 c) in
         change (digit 10 c) with v
     end; cbv iota; rewrite <- IHd; do 2 f_equal; lia).
Qed.

Lemma digits_zero d :
  digits 10 (NilEmpty.string_of_uint d) (Some 0)
  = Some (Z.of_N (Pos.of_uint d)).
Proof.
  induction d; cbn [NilEmpty.string_of_uint digits Pos.of_uint];
    [reflexivity|..];
    (match goal with
     | |- context [digit 10 ?c] =>
         let v := eval vm_compute in (digit 10 c) in
         change (digit 10 c) with v
     end; cbv iota).
  1: exact IHd.
  all: match goal with
       | |- digits 10 _ (Some ?a) = _ =>
           let v := eval vm_compute in a in change a with v
       end.
  all: rewrite digits_acc; reflexivity.
Qed.

Lemma digits_start d :
  d <> Decimal.Nil ->
  digits 10 (NilEmpty.string_of_uint d) None
  = digits 10 (NilEmpty.string_of_uint d) (Some 0).
Proof. destruct d; intros H; [contradiction|..]; reflexivity. Qed.

Lemma parseInt_string_uint d :
  d <> Decimal.Nil ->
  parseInt_string (NilEmpty.string_of_uint d)
  = match digits 10 (NilEmpty.string_of_uint d) None with
    | Some n => Some (1 * n)
    | None => None
    end.
Proof.
  destruct d as [|d|d|d|d|d|d|d|d|d|d]; intros H; [contradiction|..];
    destruct d; reflexivity.
Qed.

Lemma parseInt_count (n : nat) :
  parseInt (VStr (string_of_Z (Z.of_nat n))) = Some (Z.of_nat n).
Proof.
  unfold parseInt, toString, string_of_Z.
  destruct (Z.of_nat n) as [|p|p] eqn:E; [reflexivity| |lia].
  unfold Z.to_int, NilZero.string_of_int, NilZero.string_of_uint.
  pose proof (Unsigned.to_uint_nonnil p) as Hn.
  destruct (Pos.to_uint p) eqn:Ed; [contradiction|..];
    rewrite <- Ed in *;
    rewrite parseInt_string_uint, digits_start, digits_zero, Unsigned.of_to
      by exact Hn; cbn [Z.of_N]; f_equal; lia.
Qed.

End DecimalRoundTrip.

Section Listing.
Context {P : Platform}.

Lemma insert_desc_length c r l :
  List.length (insert_desc c r l) = S (List.length l).
Proof.
  induction l as [|x t IH]; cbn; [reflexivity|].
  destruct (later c r x); cbn; [reflexivity | now rewrite IH].
Qed.

Lemma order_desc_length c l :
  List.length (order_desc c l) = List.length l.
Proof.
  induction l as [|x t IH]; [reflexivity|].
  change (order_desc c (x :: t)) with (insert_desc c x (order_desc c t)).
  rewrite insert_desc_length, IH. reflexivity.
Qed.

(** [Math.ceil(a / b)] is the least number of groups of [b] that hold
    [a]. *)
Lemma ceil_div_spec a b :
  0 < b -> (ceil_div a b - 1) * b < a <= ceil_div a b * b.
Proof.
  intros Hb. unfold ceil_div.
  pose proof (Z.div_mod (- a) b ltac:(lia)) as Hd.
  pose proof (Z.mod_pos_bound (- a) b Hb) as Hm.
  nia.
Qed.

(** The statement of the listing names its ordering column without
    quotes; the table has no column of the folded name, whatever the
    parameters and the rows. *)
Lemma bare_order_by_is_rejected limit offset table :
  exec (SelectPage (Bare "createdAt") limit offset) table
  = inl undefined_column.
Proof. reflexivity. Qed.

(** Written the way the INSERT and the UPDATE write the column, the same
    statement selects the page: [limit] rows from row [offset] on, latest
    first. *)
Lemma quoted_order_by_selects_page limit offset table :
  0 <= limit -> 0 <= offset ->
  exec (SelectPage (Quoted "createdAt") limit offset) table
  = inr (firstn (Z.to_nat limit)
                (skipn (Z.to_nat offset) (order_desc "createdAt" table)),
         table).
Proof.
  intros Hl Ho. cbn.
  destruct (limit <? 0) eqn:E1; [lia|].
  destruct (offset <? 0) eqn:E2; [lia|]. reflexivity.
Qed.

(** A listing whose query passes validation is answered 500
    [DATABASE_ERROR] once the store has answered the count: the handler
    sends the page statement with [LIMIT limit] and
    [OFFSET (page - 1) * limit], and the store rejects it. *)
Lemma list_users_is_rejected req w :
  let page := parseInt_or (Js.field "page" (query req)) 1 in
  let limit := parseInt_or (Js.field "limit" (query req)) 10 in
  validationErrors paginationSchema (query req) = [] ->
  answers w 1 ->
  let (r, w') := GET_users req w in
  status r = VInt 500
  /\ code_of r = VStr "DATABASE_ERROR"
  /\ sent w' = SelectPage (Bare "createdAt") limit ((page - 1) * limit)
               :: CountUsers :: sent w
  /\ users w' = users w.
Proof.
  intros page limit Hv Hans.
  unfold GET_users, serve, bind, validateRequest. rewrite Hv.
  cbv [ret list_users try_catch bind object_of].
  erewrite db_query_answered;
    [| exact (answers_first _ _ Hans) | reflexivity].
  cbn [first_row]. cbv iota beta.
  fold page limit.
  unfold db_query at 1.
  rewrite bare_order_by_is_rejected.
  match goal with
  | |- context [faults ?w0 ?k] => destruct (faults w0 k)
  end; respond_error; repeat split.
Qed.

(** X26. No listing is answered 200, whatever the request and whatever
    the store answers: the statement that selects the page names a column
    the table does not have. *)
Lemma list_users_never_succeeds req w :
  status (fst (GET_users req w)) <> VInt 200.
Proof.
  unfold GET_users, serve, bind, validateRequest.
  destruct (validationErrors paginationSchema (query req)).
  2:{ respond_error. discriminate. }
  cbv [ret list_users try_catch bind].
  query_cases; [|respond_error; discriminate].
  cbn in E; inversion E; subst; clear E.
  cbn -[db_query parseInt parseInt_or ceil_div].
  unfold db_query at 1.
  rewrite bare_order_by_is_rejected.
  match goal with
  | |- context [faults ?w0 ?k] => destruct (faults w0 k)
  end; respond_error; discriminate.
Qed.

End Listing.

Section ListingExamples.
#[local] Existing Instance Sample.sample.

(** C4, at the request of the pagination test. With five users stored,
    [GET /api/users?page=1&limit=2] passes validation, and the handler asks
    for [LIMIT 2 OFFSET 0]; the store rejects the statement and the answer
    is 500 [DATABASE_ERROR], where the claim and the test expect 200 with
    two users, a total of 5 and 3 pages. *)
Lemma list_five_users_is_rejected :
  let req := Sample.request [] [("page", VStr "1"); ("limit", VStr "2")] [] in
  let w := Sample.world Sample.five_users Sample.healthy VUndefined in
  List.length (users w) = 5%nat
  /\ validationErrors paginationSchema (query req) = []
  /\ status (fst (GET_users req w)) = VInt 500
  /\ code_of (fst (GET_users req w)) = VStr "DATABASE_ERROR"
  /\ sent (snd (GET_users req w))
     = [SelectPage (Bare "createdAt") 2 0; CountUsers].
Proof. vm_compute. repeat split. Qed.

(** What the claim describes is what the statement selects when the column
    is written in quotes: two of the five users, and [ceil(5 / 2)] is 3. *)
Lemma quoted_order_by_five_users :
  (exists rows,
      exec (SelectPage (Quoted "createdAt") 2 ((1 - 1) * 2)) Sample.five_users
      = inr (rows, Sample.five_users)
      /\ List.length rows = 2%nat)
  /\ ceil_div 5 2 = 3.
Proof.
  split; [|reflexivity].
  eexists. split; [vm_compute; reflexivity | reflexivity].
Qed.

End ListingExamples.

(** ** Reading one user *)

Section Reading.
Context {P : Platform}.

Lemma no_match_iff (f : Row -> bool) l :
  Nat.eqb (List.length (filter f l)) 0 = negb (existsb f l).
Proof.
  induction l as [|r l IH]; cbn; [reflexivity|].
  destruct (f r); cbn; [reflexivity | exact IH].
Qed.

(** What a read of a stored user answers, and the world it leaves. *)
Lemma get_user_found req w :
  validationErrors idParamsSchema (params req) = [] ->
  existsb (has_id (Js.field "id" (params req))) (users w) = true ->
  faults w (List.length (sent w)) = None ->
  GET_user req w
  = ({| status := VInt 200;
        payload := json (first_row
                           (filter (has_id (Js.field "id" (params req)))
                                   (users w))) |},
     answered (SelectById (Js.field "id" (params req))) (users w) w).
Proof.
  intros Hv Hex Hans.
  unfold GET_user, serve, bind, validateRequest. rewrite Hv.
  cbv [ret get_user try_catch bind].
  erewrite db_query_answered; [| exact Hans | reflexivity].
  rewrite no_match_iff, Hex. reflexivity.
Qed.

(** C8. For an id some stored user has, two reads in a row, with the store
    answering both and nothing else touching it, return the same response:
    status 200 and the JSON of the stored row, a function of the table and
    the id alone. Neither read changes the table. *)
Theorem get_user_repeatable req w :
  validationErrors idParamsSchema (params req) = [] ->
  existsb (has_id (Js.field "id" (params req))) (users w) = true ->
  answers w 2 ->
  let (r1, w1) := GET_user req w in
  let (r2, w2) := GET_user req w1 in
  r2 = r1
  /\ status r1 = VInt 200
  /\ payload r1 = json (first_row
                          (filter (has_id (Js.field "id" (params req)))
                                  (users w)))
  /\ users w1 = users w
  /\ users w2 = users w.
Proof.
  intros Hv Hex Hans.
  rewrite (get_user_found req w Hv Hex (answers_first _ _ Hans)).
  rewrite (get_user_found req
             (answered (SelectById (Js.field "id" (params req))) (users w) w)
             Hv Hex (answers_first _ _ (answers_next _ _ _ _ Hans))).
  repeat split.
Qed.

End Reading.

Section ReadingExamples.
#[local] Existing Instance Sample.sample.

(** The theorem above at a stored user. *)
Lemma get_user_repeatable_witness :
  let req := Sample.request [("id", VStr Sample.id1)] [] [] in
  let w := Sample.world [Sample.alice] Sample.healthy VUndefined in
  existsb (has_id (Js.field "id" (params req))) (users w) = true
  /\ fst (GET_user req (snd (GET_user req w))) = fst (GET_user req w)
  /\ payload (fst (GET_user req w)) = VObj Sample.alice.
Proof.
  intros req w.
  pose proof (get_user_repeatable req w eq_refl eq_refl
                (healthy_answers _ _ _)) as H.
  destruct (GET_user req w) as [r1 w1]. cbn [fst snd].
  destruct (GET_user req w1) as [r2 w2].
  destruct H as (H21 & _ & Hp & _).
  split; [reflexivity|]. split; [exact H21|].
  rewrite Hp. reflexivity.
Defined.

End ReadingExamples.

(** ** Creating a user *)

Section Creating.
Context {P : Platform}.

(** C5. A POST whose body passes validation and whose email some stored
    user already has is answered, when the store answers the uniqueness
    check, with status 409 and the code [CONFLICT]; the uniqueness check is
    the only statement sent, so no INSERT runs, and the table is as it
    was. *)
Theorem create_duplicate_email req b w :
  body req = VObj b ->
  validationErrors createUserSchema (body req) = [] ->
  existsb (has_email (Js.field "email" (VObj b))) (users w) = true ->
  answers w 1 ->
  let (r, w') := POST_user req w in
  status r = VInt 409
  /\ code_of r = VStr "CONFLICT"
  /\ sent w' = SelectIdByEmail (Js.field "email" (VObj b)) :: sent w
  /\ users w' = users w.
Proof.
  intros Hb Hv Hex Hans.
  unfold POST_user, serve, bind, validateRequest. rewrite Hv.
  cbv [ret create_user try_catch bind object_of].
  rewrite Hb. cbv [uuidv4 now_ISOString].
  erewrite db_query_answered;
    [| exact (answers_first _ _ Hans) | reflexivity].
  rewrite some_row_iff. cbn [users]. rewrite Hex.
  respond_error. repeat split.
Qed.

End Creating.

Section CreatingExamples.
#[local] Existing Instance Sample.sample.

(** The theorem above at a second user with a stored email. *)
Lemma create_duplicate_email_witness :
  let b := [("name", VStr "Alice Again");
            ("email", VStr "alice.johnson@example.com")] in
  let req := Sample.request [] [] b in
  let w := Sample.world [Sample.alice] Sample.healthy VUndefined in
  validationErrors createUserSchema (body req) = []
  /\ existsb (has_email (Js.field "email" (VObj b))) (users w) = true
  /\ status (fst (POST_user req w)) = VInt 409
  /\ users (snd (POST_user req w)) = [Sample.alice].
Proof.
  intros b req w.
  pose proof (create_duplicate_email req b w eq_refl eq_refl eq_refl
                (healthy_answers _ _ _)) as H.
  destruct (POST_user req w) as [r w'].
  destruct H as (Hs & _ & _ & Hu).
  split; [reflexivity|]. split; [reflexivity|].
  split; [exact Hs | exact Hu].
Defined.

End CreatingExamples.

(** *** A creation that goes through *)

Section Created.
Context {P : Platform}.

(** A body that passes [createUserSchema] has a name and an email that are
    strings, and an age that is absent, a number or a string. *)
Lemma valid_create_body b :
  validationErrors createUserSchema (VObj b) = [] ->
  (exists n, Js.field "name" (VObj b) = VStr n)
  /\ (exists e, Js.field "email" (VObj b) = VStr e)
  /\ (Js.field "age" (VObj b) = VUndefined
      \/ (exists n, Js.field "age" (VObj b) = VNum n)
      \/ (exists s, Js.field "age" (VObj b) = VStr s)).
Proof.
  unfold validationErrors, Joi.validate. intros H.
  apply map_eq_nil in H. cbn [flat_map createUserSchema fst snd] in H.
  apply app_eq_nil in H. destruct H as [Hn H].
  apply app_eq_nil in H. destruct H as [He H].
  apply app_eq_nil in H. destruct H as [Ha _].
  unfold Joi.details_of_key in *.
  apply map_eq_nil in Hn, He, Ha.
  repeat split.
  - destruct (Js.field "name" (VObj b)); try discriminate Hn. eexists; reflexivity.
  - destruct (Js.field "email" (VObj b)); try discriminate He. eexists; reflexivity.
  - destruct (Js.field "age" (VObj b)); try discriminate Ha.
    + left; reflexivity.
    + right; left; eexists; reflexivity.
    + right; right; eexists; reflexivity.
Qed.

Lemma create_user_succeeds req b w :
  body req = VObj b ->
  validationErrors createUserSchema (body req) = [] ->
  can_create b w ->
  exists w',
    POST_user req w
    = ({| status := VInt 201; payload := VObj (created_row b w) |}, w')
    /\ users w' = (users w ++ [created_row b w])%list
    /\ drawn w' = S (drawn w)
    /\ uuids w' = uuids w.
Proof.
  intros Hb Hv (Hid & Hem & Hans).
  unfold POST_user, serve, bind, validateRequest. rewrite Hv.
  cbv [ret create_user try_catch bind object_of].
  rewrite Hb in *. cbv [uuidv4 now_ISOString].
  erewrite db_query_answered;
    [| exact (answers_first _ _ Hans) | reflexivity].
  rewrite some_row_iff. cbn [users]. rewrite Hem.
  cbn [uuids drawn clock reads users sent faults answered].
  fold (created_row b w).
  assert (Hins : exec (Insert [Bare "id"; Bare "name"; Bare "email";
                               Bare "age"; Quoted "createdAt";
                               Quoted "updatedAt"]
                              [VStr (uuids w (drawn w));
                               Js.field "name" (VObj b);
                               Js.field "email" (VObj b);
                               or (Js.field "age" (VObj b)) VNull;
                               VStr (clock w (reads w));
                               VStr (clock w (reads w))]) (users w)
                 = inr ([created_row b w],
                        (users w ++ [created_row b w])%list)).
  { cbn [exec]. change (combine _ _) with (created_row b w).
    change (forallb is_column _) with true. cbn [negb].
    unfold collides.
    change (column "id" (created_row b w))
      with (VStr (uuids w (drawn w))).
    change (column "email" (created_row b w))
      with (Js.field "email" (VObj b)).
    rewrite Hid, Hem. reflexivity. }
  erewrite db_query_answered;
    [| exact (answers_second _ _ Hans) | exact Hins].
  cbn [respond ret first_row].
  assert (Hjson : json (VObj (created_row b w)) = VObj (created_row b w)).
  { destruct (valid_create_body b Hv) as ((n & Hn) & (e & He) & Ha).
    unfold created_row. rewrite Hn, He.
    destruct Ha as [Ha|[(x & Ha)|(x & Ha)]]; rewrite Ha; unfold or;
      cbn [truthy].
    - reflexivity.
    - destruct x as [z|fl r]; [destruct (negb (z =? 0))|]; reflexivity.
    - destruct (negb (String.eqb x "")); reflexivity. }
  rewrite Hjson. eexists. split; [reflexivity|]. repeat split.
Qed.

(** C9. For a body that passes validation, with nothing in the way of the
    creation: the age stored and returned is the age of the body when that
    is truthy and [null] otherwise. So an age of exactly 0 is stored and
    returned as [null], and an age from 1 to 150 as it is. *)
Theorem create_stores_falsy_age_as_null req b w :
  body req = VObj b ->
  validationErrors createUserSchema (body req) = [] ->
  can_create b w ->
  let age := Js.field "age" (VObj b) in
  let (r, w') := POST_user req w in
  status r = VInt 201
  /\ (exists row,
         users w' = (users w ++ [row])%list
         /\ column "age" row = (if truthy age then age else VNull)
         /\ Js.field "age" (payload r) = column "age" row)
  /\ (age = VInt 0 -> Js.field "age" (payload r) = VNull)
  /\ (forall a, 1 <= a <= 150 -> age = VInt a ->
                Js.field "age" (payload r) = VInt a).
Proof.
  intros Hb Hv Hc age.
  destruct (create_user_succeeds req b w Hb Hv Hc)
    as (w' & Hpost & Hu & _).
  rewrite Hpost. cbn [status payload].
  split; [reflexivity|]. split.
  { exists (created_row b w). split; [exact Hu|]. split; reflexivity. }
  change (Js.field "age" (VObj (created_row b w))) with (or age VNull).
  split.
  - intros H0. rewrite H0. reflexivity.
  - intros a Ha Hage. rewrite Hage. unfold or; cbn.
    destruct (a =? 0) eqn:E; [lia | reflexivity].
Qed.

End Created.

Section CreatedExamples.
#[local] Existing Instance Sample.sample.

Lemma sample_can_create b :
  existsb (has_email (Js.field "email" (VObj b))) [Sample.alice] = false ->
  can_create b (Sample.world [Sample.alice] Sample.healthy VUndefined).
Proof.
  intros H. split; [reflexivity|].
  split; [exact H | apply healthy_answers].
Qed.

(** The theorem for C9 at an age of 0, which is within the range of the
    schema. *)
Lemma create_stores_falsy_age_as_null_witness :
  let b := [("name", VStr "Test User"); ("email", VStr "test@example.com");
            ("age", VInt 0)] in
  let req := Sample.request [] [] b in
  let w := Sample.world [Sample.alice] Sample.healthy VUndefined in
  validationErrors createUserSchema (body req) = []
  /\ status (fst (POST_user req w)) = VInt 201
  /\ Js.field "age" (payload (fst (POST_user req w))) = VNull.
Proof.
  intros b req w.
  pose proof (create_stores_falsy_age_as_null req b w eq_refl eq_refl
                (sample_can_create b eq_refl)) as H.
  destruct (POST_user req w) as [r w'].
  destruct H as (Hs & _ & H0 & _).
  split; [reflexivity|]. split; [exact Hs | exact (H0 eq_refl)].
Defined.

End CreatedExamples.

(** ** The id generator across requests *)

(** The request is over: read the world off the equation. *)
Ltac settle :=
  let H := fresh "H" in
  solve [ cbn; intros H; inversion H; subst; clear H; cbn;
          repeat split; auto ].

Section Generator.
Context {P : Platform}.

(** Only a creation draws from the generator, and one id at most. *)
Lemma generator_advances e req w r w' :
  router e req w = (r, w') ->
  uuids w' = uuids w
  /\ (drawn w' = drawn w
      \/ (e = CreateUser /\ drawn w' = S (drawn w))).
Proof.
  destruct e;
    unfold router, GET_users, GET_user, POST_user, PUT_user, DELETE_user,
      serve, bind, validateRequest.
  - destruct (validationErrors paginationSchema (query req)); [|settle].
    cbv [ret list_users try_catch bind].
    query_cases; [|settle].
    cbn in E; inversion E; subst; clear E.
    cbn -[db_query parseInt parseInt_or ceil_div].
    query_cases; [|settle].
    cbn -[parseInt parseInt_or ceil_div json]. settle.
  - destruct (validationErrors idParamsSchema (params req)); [|settle].
    cbv [ret get_user try_catch bind].
    query_cases; [|settle].
    cbn in E; inversion E; subst; clear E.
    destruct (Nat.eqb _ _); settle.
  - destruct (validationErrors createUserSchema (body req)); [|settle].
    cbv [ret create_user try_catch bind object_of].
    destruct (body req); try settle.
    all: cbv [uuidv4 now_ISOString throw].
    all: query_cases; [|settle].
    all: cbn in E; inversion E; subst; clear E.
    all: destruct (Nat.ltb _ _); [settle|].
    all: query_cases; [|settle].
    all: settle.
  - destruct (validationErrors idParamsSchema (params req)); [|settle].
    cbv [ret].
    destruct (validationErrors updateUserSchema (body req)); [|settle].
    cbv [ret update_user try_catch bind object_of].
    destruct (body req); try settle.
    all: cbv [now_ISOString throw].
    all: query_cases; [|settle].
    all: cbn in E; inversion E; subst; clear E.
    all: destruct (Nat.eqb _ _); [settle|].
    all: cbv [ret throw bind].
    all: match goal with |- context [truthy ?e] => destruct (truthy e) end.
    all: try (query_cases; [|settle]; cbn in E; inversion E; subst; clear E;
              destruct (Nat.ltb _ _); [settle|]).
    all: match goal with
         | |- context [push_if_defined ?a ?b ?c] =>
             destruct (push_if_defined a b c)
               as [[updates values] paramCount]
         end.
    all: destruct (Nat.eqb _ _); [settle|].
    all: query_cases; [|settle].
    all: destruct (Nat.eqb _ _); settle.
  - destruct (validationErrors idParamsSchema (params req)); [|settle].
    cbv [ret delete_user try_catch bind].
    query_cases; [|settle].
    cbn in E; inversion E; subst; clear E.
    destruct (Nat.eqb _ _); settle.
Qed.

(** The ids issued before a request are still the first ids issued after
    it. *)
Lemma issued_grows e req w r w' :
  router e req w = (r, w') ->
  issued w' = issued w
  \/ issued w' = (issued w ++ [uuids w (drawn w)])%list.
Proof.
  intros H. destruct (generator_advances e req w r w' H) as (Hg & [Hd|(_ & Hd)]);
    unfold issued; rewrite Hg, Hd.
  - left. reflexivity.
  - right. rewrite seq_S, map_app. reflexivity.
Qed.

End Generator.

(** ** Ids over a run of requests *)

(** The route cannot have answered 201. *)
Ltac refute :=
  let H := fresh "H" in
  solve [ respond_error; intros H; inversion H; subst; clear H;
          intros H; discriminate H ].

Section Runs.
Context {P : Platform}.

(** The INSERT of the route names columns the table has. *)
Lemma exec_insert_user id name email age createdAt updatedAt table :
  let row := [("id", id); ("name", name); ("email", email); ("age", age);
              ("createdAt", createdAt); ("updatedAt", updatedAt)] in
  exec (Insert [Bare "id"; Bare "name"; Bare "email"; Bare "age";
                Quoted "createdAt"; Quoted "updatedAt"]
               [id; name; email; age; createdAt; updatedAt]) table
  = if collides row table then inl duplicate_key
    else inr ([row], (table ++ [row])%list).
Proof. reflexivity. Qed.

(** A creation that answers 201 returns the id it drew. *)
Lemma created_user_has_drawn_id req w r w' :
  POST_user req w = (r, w') ->
  status r = VInt 201 ->
  Js.field "id" (payload r) = VStr (uuids w (drawn w))
  /\ drawn w' = S (drawn w).
Proof.
  unfold POST_user, serve, bind, validateRequest.
  destruct (validationErrors createUserSchema (body req)); [|refute].
  cbv [ret create_user try_catch bind object_of].
  destruct (body req); try refute.
  all: cbv [uuidv4 now_ISOString throw].
  all: query_cases; [|refute].
  all: cbn in E; inversion E; subst; clear E.
  all: destruct (Nat.ltb _ _); [refute|].
  all: query_cases; [|refute].
  all: rewrite exec_insert_user in E; cbv zeta in E.
  all: match type of E with
       | (if ?c then _ else _) = _ => destruct c; [discriminate E|]
       end.
  all: inversion E; subst; clear E.
  all: cbn; intros H; inversion H; subst; clear H; intros _; cbn.
  all: split; reflexivity.
Qed.

Lemma issued_injective w i j :
  NoDup (issued w) -> (i < drawn w)%nat -> (j < drawn w)%nat ->
  uuids w i = uuids w j -> i = j.
Proof.
  unfold issued. intros Hnd Hi Hj Hij.
  apply (proj1 (NoDup_nth _ "") Hnd i j).
  - now rewrite length_map, length_seq.
  - now rewrite length_map, length_seq.
  - rewrite !(nth_indep _ "" (uuids w 0%nat)) by now rewrite length_map, length_seq.
    rewrite !map_nth, !seq_nth by assumption. exact Hij.
Qed.

(** Over any run of requests: the generator is the same afterwards, and
    the ids the creations returned were drawn during the run, each at its
    own draw; so they are pairwise distinct when the generator has not
    repeated itself. *)
Lemma run_invariant reqs :
  forall w rs w',
    run reqs w = (rs, w') ->
    uuids w' = uuids w
    /\ (drawn w <= drawn w')%nat
    /\ (forall v, In v (created_ids (map fst reqs) rs) ->
                  exists i, (drawn w <= i < drawn w')%nat
                            /\ v = VStr (uuids w i))
    /\ (NoDup (issued w') -> NoDup (created_ids (map fst reqs) rs)).
Proof.
  induction reqs as [|[e req] rest IH]; intros w rs w' Hrun; cbn in Hrun.
  - inversion Hrun; subst. repeat split; [lia | intros v [] | constructor].
  - destruct (router e req w) as [r w1] eqn:Hr.
    destruct (run rest w1) as [rs' w2] eqn:Hrest.
    inversion Hrun; subst; clear Hrun.
    destruct (IH w1 rs' w' Hrest) as (Hg2 & Hd2 & Hin2 & Hnd2).
    destruct (generator_advances e req w r w1 Hr) as (Hg1 & Hd1).
    assert (Hle : (drawn w <= drawn w1)%nat) by (destruct Hd1 as [->|(_ & ->)]; lia).
    assert (Hfirst : forall v, In v (created_id e r) ->
               v = VStr (uuids w (drawn w)) /\ drawn w1 = S (drawn w)).
    { intros v Hv. unfold created_id in Hv. destruct e; try contradiction.
      destruct (strict_eq (status r) (VInt 201)) eqn:Hs; [|contradiction].
      assert (Hst : status r = VInt 201).
      { destruct (status r) as [| | |[z|]| | |]; try discriminate Hs.
        cbn in Hs. apply Z.eqb_eq in Hs. now subst. }
      destruct (created_user_has_drawn_id req w r w1 Hr Hst) as (Hid & Hd).
      destruct Hv as [<-|[]]. split; assumption. }
    split; [congruence|]. split; [lia|]. split.
    + intros v Hv. cbn [map fst created_ids] in Hv.
      apply in_app_or in Hv. destruct Hv as [Hv|Hv].
      * destruct (Hfirst v Hv) as (-> & Hd). exists (drawn w). split; [lia | reflexivity].
      * destruct (Hin2 v Hv) as (i & Hi & ->). exists i. split; [lia | congruence].
    + intros Hnd. cbn [map fst created_ids].
      apply NoDup_app; [| exact (Hnd2 Hnd) |].
      * unfold created_id. destruct e; try constructor.
        destruct (strict_eq _ _); repeat constructor. intros [].
      * intros v Hv1 Hv2.
        destruct (Hfirst v Hv1) as (-> & Hd).
        destruct (Hin2 _ Hv2) as (i & Hi & Heq).
        injection Heq as Hu.
        assert (Hu' : uuids w' (drawn w) = uuids w' i) by congruence.
        apply (issued_injective w') in Hu'; [lia | exact Hnd | lia | lia].
Qed.

(** X25. The ids of the users created during a run of requests of any
    kind are pairwise distinct, for a generator that has not repeated
    itself by the end of the run. *)
Lemma created_ids_are_distinct reqs w :
  NoDup (issued (snd (run reqs w))) ->
  NoDup (created_ids (map fst reqs) (fst (run reqs w))).
Proof.
  destruct (run reqs w) as [rs w'] eqn:Hrun.
  exact (proj2 (proj2 (proj2 (run_invariant reqs w rs w' Hrun)))).
Qed.

End Runs.

(** ** The id of a created user *)

Section Fresh.
Context {P : Platform}.



End Fresh.

Section FreshExamples.
#[local] Existing Instance Sample.sample.


End FreshExamples.

(** ** Updating a user *)

Section Update.
Context {P : Platform}.

(** A body without [name], [email] and [age] passes [updateUserSchema]. *)
Lemma empty_update_is_valid b :
  Js.field "name" (VObj b) = VUndefined ->
  Js.field "email" (VObj b) = VUndefined ->
  Js.field "age" (VObj b) = VUndefined ->
  validationErrors updateUserSchema (VObj b) = [].
Proof.
  intros Hn He Ha.
  unfold validationErrors, Joi.validate, updateUserSchema,
    Joi.details_of_key.
  cbn -[Js.field]. rewrite Hn, He, Ha. reflexivity.
Qed.

(** C2 (as amended). A PUT whose id is well formed and whose body supplies
    none of [name], [email] and [age] passes validation; when a user with
    that id exists it is answered with status 400 and the code
    [NO_UPDATES], after the existence check and before any write: the one
    statement sent for the request is the SELECT of the existence check, and
    the table is as it was. *)
Theorem update_without_fields req b w :
  body req = VObj b ->
  validationErrors idParamsSchema (params req) = [] ->
  Js.field "name" (VObj b) = VUndefined ->
  Js.field "email" (VObj b) = VUndefined ->
  Js.field "age" (VObj b) = VUndefined ->
  existsb (has_id (Js.field "id" (params req))) (users w) = true ->
  answers w 1 ->
  validationErrors updateUserSchema (body req) = []
  /\ let (r, w') := PUT_user req w in
     status r = VInt 400
     /\ code_of r = VStr "NO_UPDATES"
     /\ sent w' = SelectIdById (Js.field "id" (params req)) :: sent w
     /\ users w' = users w.
Proof.
  intros Hb Hid Hn He Ha Hex Hans.
  assert (Hv : validationErrors updateUserSchema (body req) = [])
    by (rewrite Hb; apply empty_update_is_valid; assumption).
  split; [exact Hv|].
  unfold PUT_user, serve, bind, validateRequest.
  rewrite Hid, Hv.
  cbv [ret update_user try_catch bind object_of].
  rewrite Hb, Hn, He, Ha.
  cbv [now_ISOString].
  erewrite db_query_answered;
    [| exact (answers_first _ _ Hans) | reflexivity].
  rewrite no_row_iff. cbn [users]. rewrite Hex.
  respond_error. repeat split.
Qed.

(** C10 (as amended). A PUT whose id and body pass validation and whose id
    no user has is answered with status 404 and the code [NOT_FOUND],
    whatever fields the body supplies, and so also for the empty body; the
    table is as it was. *)
Theorem update_missing_user req b w :
  body req = VObj b ->
  validationErrors idParamsSchema (params req) = [] ->
  validationErrors updateUserSchema (body req) = [] ->
  existsb (has_id (Js.field "id" (params req))) (users w) = false ->
  answers w 1 ->
  let (r, w') := PUT_user req w in
  status r = VInt 404
  /\ code_of r = VStr "NOT_FOUND"
  /\ sent w' = SelectIdById (Js.field "id" (params req)) :: sent w
  /\ users w' = users w.
Proof.
  intros Hb Hid Hv Hex Hans.
  unfold PUT_user, serve, bind, validateRequest.
  rewrite Hid, Hv.
  cbv [ret update_user try_catch bind object_of].
  rewrite Hb.
  cbv [now_ISOString].
  erewrite db_query_answered;
    [| exact (answers_first _ _ Hans) | reflexivity].
  rewrite no_row_iff. cbn [users]. rewrite Hex.
  respond_error. repeat split.
Qed.

End Update.

Section UpdateExamples.
#[local] Existing Instance Sample.sample.

(** The theorem for C2 at an empty body sent to a stored user. *)
Lemma update_without_fields_witness :
  let req := Sample.request [("id", VStr Sample.id1)] [] [] in
  let w := Sample.world [Sample.alice] Sample.healthy VUndefined in
  validationErrors idParamsSchema (params req) = []
  /\ existsb (has_id (Js.field "id" (params req))) (users w) = true
  /\ status (fst (PUT_user req w)) = VInt 400
  /\ code_of (fst (PUT_user req w)) = VStr "NO_UPDATES".
Proof.
  intros req w.
  pose proof (update_without_fields req [] w eq_refl eq_refl eq_refl eq_refl
                eq_refl eq_refl (healthy_answers _ _ _)) as [_ H].
  destruct (PUT_user req w) as [r w'].
  destruct H as (Hs & Hc & _).
  repeat split; [exact Hs | exact Hc].
Defined.

(** C2 as the specification states it fails: the empty body passes
    validation and is rejected with 400 [NO_UPDATES], but not before the
    store is accessed; the existence check has been sent by then. *)
Lemma update_without_fields_reaches_store :
  let req := Sample.request [("id", VStr Sample.id1)] [] [] in
  let w := Sample.world [Sample.alice] Sample.healthy VUndefined in
  validationErrors updateUserSchema (body req) = []
  /\ code_of (fst (PUT_user req w)) = VStr "NO_UPDATES"
  /\ sent w = []
  /\ sent (snd (PUT_user req w)) = [SelectIdById (VStr Sample.id1)].
Proof. vm_compute. repeat split. Qed.

(** The theorem for C10 at an empty body sent to an id no user has. *)
Lemma update_missing_user_witness :
  let req := Sample.request [("id", VStr Sample.id2)] [] [] in
  let w := Sample.world [Sample.alice] Sample.healthy VUndefined in
  existsb (has_id (Js.field "id" (params req))) (users w) = false
  /\ status (fst (PUT_user req w)) = VInt 404
  /\ code_of (fst (PUT_user req w)) = VStr "NOT_FOUND".
Proof.
  intros req w.
  pose proof (update_missing_user req [] w eq_refl eq_refl eq_refl eq_refl
                (healthy_answers _ _ _)) as H.
  destruct (PUT_user req w) as [r w'].
  destruct H as (Hs & Hc & _).
  repeat split; [exact Hs | exact Hc].
Defined.

(** C10 as the specification states it fails: against an id no user has, a
    body that breaks the schema (a name of one character) is answered with
    400 [VALIDATION_ERROR], not with 404; and so is the id of the tests that
    is not a UUID, whatever the body. Validation runs before the handler. *)
Lemma update_missing_user_invalid_body :
  let w := Sample.world [Sample.alice] Sample.healthy VUndefined in
  let short_name := Sample.request [("id", VStr Sample.id2)] []
                                   [("name", VStr "a")] in
  let invalid_id := Sample.request [("id", VStr "invalid-id")] []
                                   [("name", VStr "Updated")] in
  (existsb (has_id (Js.field "id" (params short_name))) (users w) = false
   /\ status (fst (PUT_user short_name w)) = VInt 400
   /\ code_of (fst (PUT_user short_name w)) = VStr "VALIDATION_ERROR")
  /\ (existsb (has_id (Js.field "id" (params invalid_id))) (users w) = false
      /\ status (fst (PUT_user invalid_id w)) = VInt 400
      /\ code_of (fst (PUT_user invalid_id w)) = VStr "VALIDATION_ERROR").
Proof. vm_compute. repeat split. Qed.

End UpdateExamples.

(** ** Store failures *)

Section StoreFailures.
Context {P : Platform}.

(** C6 (as amended). On every route, a request during which the store
    answered a statement with an error is answered with status 500 and the
    code [DATABASE_ERROR]. *)
Theorem store_failure_is_database_error e req w r w' :
  router e req w = (r, w') ->
  failed w' <> failed w ->
  status r = VInt 500 /\ code_of r = VStr "DATABASE_ERROR".
Proof.
  destruct e;
    unfold router, GET_users, GET_user, POST_user, PUT_user, DELETE_user,
      serve, bind, validateRequest.
  - destruct (validationErrors paginationSchema (query req)); [|answer].
    cbv [ret list_users try_catch bind].
    query_cases; [|answer].
    cbn in E; inversion E; subst; clear E.
    cbn -[db_query parseInt parseInt_or ceil_div].
    query_cases; [|answer].
    cbn -[parseInt parseInt_or ceil_div json]. answer.
  - destruct (validationErrors idParamsSchema (params req)); [|answer].
    cbv [ret get_user try_catch bind].
    query_cases; [|answer].
    cbn in E; inversion E; subst; clear E.
    destruct (Nat.eqb _ _); answer.
  - destruct (validationErrors createUserSchema (body req)); [|answer].
    cbv [ret create_user try_catch bind object_of].
    destruct (body req); try answer.
    all: cbv [uuidv4 now_ISOString throw].
    all: query_cases; [|answer].
    all: cbn in E; inversion E; subst; clear E.
    all: destruct (Nat.ltb _ _); [answer|].
    all: query_cases; [|answer].
    all: answer.
  - destruct (validationErrors idParamsSchema (params req)); [|answer].
    cbv [ret].
    destruct (validationErrors updateUserSchema (body req)); [|answer].
    cbv [ret update_user try_catch bind object_of].
    destruct (body req); try answer.
    all: cbv [now_ISOString throw].
    all: query_cases; [|answer].
    all: cbn in E; inversion E; subst; clear E.
    all: destruct (Nat.eqb _ _); [answer|].
    all: cbv [ret throw bind].
    all: match goal with |- context [truthy ?e] => destruct (truthy e) end.
    all: try (query_cases; [|answer]; cbn in E; inversion E; subst; clear E;
              destruct (Nat.ltb _ _); [answer|]).
    all: match goal with
         | |- context [push_if_defined ?a ?b ?c] =>
             destruct (push_if_defined a b c)
               as [[updates values] paramCount]
         end.
    all: destruct (Nat.eqb _ _); [answer|].
    all: query_cases; [|answer].
    all: destruct (Nat.eqb _ _); answer.
  - destruct (validationErrors idParamsSchema (params req)); [|answer].
    cbv [ret delete_user try_catch bind].
    query_cases; [|answer].
    cbn in E; inversion E; subst; clear E.
    destruct (Nat.eqb _ _); answer.
Qed.

End StoreFailures.

Section StoreFailureExamples.
#[local] Existing Instance Sample.sample.

(** The theorem above at a listing against a store that cannot be
    reached. *)
Lemma store_failure_witness :
  let w := Sample.world Sample.five_users Sample.unreachable VUndefined in
  let rw := GET_users (Sample.request [] [] []) w in
  failed (snd rw) <> failed w
  /\ status (fst rw) = VInt 500
  /\ code_of (fst rw) = VStr "DATABASE_ERROR".
Proof.
  intros w rw.
  assert (Hf : failed (snd rw) <> failed w) by (vm_compute; discriminate).
  split; [exact Hf|].
  exact (store_failure_is_database_error ListUsers (Sample.request [] [] [])
           w (fst rw) (snd rw) (surjective_pairing rw) Hf).
Defined.

(** C6 as the specification states it fails: a listing against a store that
    cannot be reached is answered with the code [DATABASE_ERROR], not
    [INTERNAL_SERVER_ERROR]. *)
Lemma store_failure_code_differs :
  let w := Sample.world Sample.five_users Sample.unreachable VUndefined in
  let rw := GET_users (Sample.request [] [] []) w in
  failed (snd rw) = S (failed w)
  /\ status (fst rw) = VInt 500
  /\ code_of (fst rw) <> VStr "INTERNAL_SERVER_ERROR".
Proof.
  vm_compute. repeat split. discriminate.
Qed.

End StoreFailureExamples.

(** * Further properties of the routes and of the rest of the application *)

Import App Seed Terms.

(** ** Requests the middlewares reject *)

Section Rejected.
Context {P : Platform}.

(** X1. On every route, a request in which a schema finds a violation is
    answered 400 [VALIDATION_ERROR] with the constant message, and the
    world is as it was: no statement was sent, no id drawn, the clock not
    read. *)
Theorem invalid_request_is_rejected e req w :
  violations e req <> [] ->
  router e req w = (validation_error, w).
Proof.
  destruct e; cbn [violations router]; intros Hv;
    unfold GET_users, GET_user, POST_user, PUT_user, DELETE_user, serve, bind,
      validateRequest.
  1-3,5: match goal with
       | |- context [validationErrors ?s ?i] =>
           destruct (validationErrors s i); [contradiction|]
       end; respond_error; reflexivity.
  destruct (validationErrors idParamsSchema (params req)) as [|v l].
  - cbn [app] in Hv. cbv [ret].
    destruct (validationErrors updateUserSchema (body req));
      [contradiction|]. respond_error. reflexivity.
  - respond_error. reflexivity.
Qed.

(** An id that passes [idParamsSchema] is a string of the GUID grammar. *)
Lemma valid_id req :
  validationErrors idParamsSchema (params req) = [] ->
  Js.field "id" (params req) <> VUndefined ->
  exists s, Js.field "id" (params req) = VStr s /\ isGuid s = true.
Proof.
  unfold validationErrors, Joi.validate. intros H Hd.
  apply map_eq_nil in H.
  destruct (params req) as [| | | | | |fs] eqn:Hp; try (cbn in Hd; contradiction);
    try discriminate H.
  cbn [flat_map idParamsSchema fst snd] in H.
  apply app_eq_nil in H. destruct H as [H _].
  unfold Joi.details_of_key in H. apply map_eq_nil in H.
  destruct (Js.field "id" (VObj fs)) as [| |x|n|x|l|l]; try discriminate H.
  exists x. split; [reflexivity|].
  cbn in H. destruct (String.eqb x ""); cbn in H; [discriminate H|].
  destruct (isGuid x); [reflexivity | discriminate H].
Qed.

(** X2. The routes that take an id send the store nothing unless the id is
    a string of the GUID grammar: a request with an id that reached the
    store had such an id. *)
Theorem store_sees_only_valid_ids e req w :
  e = GetUser \/ e = UpdateUser \/ e = DeleteUser ->
  Js.field "id" (params req) <> VUndefined ->
  sent (snd (router e req w)) <> sent w ->
  exists s, Js.field "id" (params req) = VStr s /\ isGuid s = true.
Proof.
  intros He Hd Hs.
  apply valid_id; [|exact Hd].
  destruct (validationErrors idParamsSchema (params req)) as [|v l] eqn:Hv;
    [reflexivity|].
  exfalso. apply Hs.
  destruct He as [->|[->| ->]];
    unfold router, GET_user, PUT_user, DELETE_user, serve, bind,
      validateRequest;
    rewrite Hv; reflexivity.
Qed.

(** Validation reads the declared keys only: two inputs that agree on the
    keys of a schema have the same violations. *)
Lemma violations_by_declared_keys schema b b' :
  (forall k, In k (map fst schema) ->
             Js.field k (VObj b) = Js.field k (VObj b')) ->
  validationErrors schema (VObj b) = validationErrors schema (VObj b').
Proof.
  intros H. unfold validationErrors, Joi.validate. f_equal.
  induction schema as [|[k s] rest IH]; [reflexivity|].
  cbn [flat_map fst snd]. rewrite (H k (or_introl eq_refl)). f_equal.
  apply IH. intros k' Hk'. apply H. right. exact Hk'.
Qed.

(** X3. Keys of the body other than [name], [email] and [age] have no
    effect on any route: two requests with the same parameters and query
    whose bodies agree on those three keys get the same violations and the
    same response and leave the same world. The handlers read the raw body,
    from which the middleware strips nothing, but read those three keys
    only; so a client cannot set the id or a timestamp of a user. *)
Theorem undeclared_keys_have_no_effect e req req' b b' w :
  body req = VObj b ->
  body req' = VObj b' ->
  params req' = params req ->
  query req' = query req ->
  (forall k, In k ["name"; "email"; "age"] ->
             Js.field k (VObj b) = Js.field k (VObj b')) ->
  violations e req' = violations e req
  /\ router e req' w = router e req w.
Proof.
  intros Hb Hb' Hp Hq H.
  assert (Hn := H "name" ltac:(cbn; tauto)).
  assert (He := H "email" ltac:(cbn; tauto)).
  assert (Ha := H "age" ltac:(cbn; tauto)).
  assert (Hc : validationErrors createUserSchema (VObj b')
               = validationErrors createUserSchema (VObj b)).
  { symmetry. apply violations_by_declared_keys. exact H. }
  assert (Hu : validationErrors updateUserSchema (VObj b')
               = validationErrors updateUserSchema (VObj b)).
  { symmetry. apply violations_by_declared_keys. exact H. }
  destruct e; cbn [violations router].
  - unfold GET_users, validateRequest, list_users. rewrite Hq.
    split; reflexivity.
  - unfold GET_user, validateRequest, get_user. rewrite Hp.
    split; reflexivity.
  - unfold POST_user, validateRequest, create_user.
    rewrite Hb, Hb', Hc. unfold serve, try_catch.
    cbv [bind ret object_of]. rewrite <- Hn, <- He, <- Ha.
    split; reflexivity.
  - unfold PUT_user, validateRequest, update_user.
    rewrite Hb, Hb', Hp, Hu. unfold serve, try_catch.
    cbv [bind ret object_of]. rewrite <- Hn, <- He, <- Ha.
    split; reflexivity.
  - unfold DELETE_user, validateRequest, delete_user. rewrite Hp.
    split; reflexivity.
Qed.

(** X4. The message [idParamsSchema] declares for the code [string.uuid]
    is never used: the code of a string outside the GUID grammar is
    [string.guid], so every detail of the schema carries the message of
    Joi's own template for its code. *)
Theorem custom_id_message_is_never_used input d :
  In d (Joi.validate idParamsSchema input) ->
  Joi.type d <> "string.uuid"
  /\ Joi.message d
     = defaultMessage (Joi.type d)
                      (match Joi.path d with k :: _ => k | [] => "value" end).
Proof.
  unfold Joi.validate.
  destruct input as [| |x|n|x|l|fs]; cbn [In];
    try (intros [<-|[]]; split; [discriminate | reflexivity]);
    try contradiction.
  cbn [flat_map idParamsSchema fst snd]. rewrite app_nil_r.
  unfold Joi.details_of_key. intros Hd. apply in_map_iff in Hd.
  destruct Hd as (c & <- & Hc). cbn [Joi.type Joi.path Joi.message].
  assert (Hcode : c = "any.required" \/ c = "string.base"
                  \/ c = "string.empty" \/ c = "string.guid").
  { revert Hc. unfold Joi.codes.
    destruct (Js.field "id" (VObj fs)) as [| |y|m|y|l|l]; cbn;
      try (intros [<-|[]]; tauto).
    destruct (String.eqb y ""); cbn; [intros [<-|[]]; tauto|].
    destruct (isGuid y); cbn; [contradiction | intros [<-|[]]; tauto]. }
  destruct Hcode as [->|[->|[->| ->]]]; split; try discriminate; reflexivity.
Qed.

End Rejected.

(** ** Reading and deleting *)

Section Deleting.
Context {P : Platform}.

Lemma has_id_defined id table :
  existsb (has_id id) table = true -> id <> VUndefined.
Proof.
  intros H ->. induction table as [|r t IH]; [discriminate|].
  cbn in H. unfold has_id at 1 in H.
  destruct (column "id" r); cbn in H; auto.
Qed.

Lemma filter_none (f : Row -> bool) l :
  existsb f l = false -> filter (fun r => negb (f r)) l = l.
Proof.
  induction l as [|r t IH]; cbn; [reflexivity|].
  destruct (f r); cbn; [discriminate|]. intros H. now rewrite IH.
Qed.

Lemma filter_out (f : Row -> bool) l :
  existsb f (filter (fun r => negb (f r)) l) = false.
Proof.
  induction l as [|r t IH]; cbn; [reflexivity|].
  destruct (f r) eqn:E; cbn; [exact IH|]. now rewrite E.
Qed.

(** What a read of an id no user has answers, and the world it leaves. *)
Lemma get_user_absent req w :
  validationErrors idParamsSchema (params req) = [] ->
  existsb (has_id (Js.field "id" (params req))) (users w) = false ->
  faults w (List.length (sent w)) = None ->
  GET_user req w
  = (not_found,
     answered (SelectById (Js.field "id" (params req))) (users w) w).
Proof.
  intros Hv Hex Hans.
  unfold GET_user, serve, bind, validateRequest. rewrite Hv.
  cbv [ret get_user try_catch bind].
  erewrite db_query_answered; [| exact Hans | reflexivity].
  rewrite no_match_iff, Hex. respond_error. reflexivity.
Qed.

(** X5. A read of a valid id that no user has, with the store answering,
    is answered 404 [NOT_FOUND] after the one look-up, and the table is as
    it was. *)
Theorem get_user_missing req w :
  validationErrors idParamsSchema (params req) = [] ->
  existsb (has_id (Js.field "id" (params req))) (users w) = false ->
  answers w 1 ->
  let (r, w') := GET_user req w in
  r = not_found
  /\ users w' = users w
  /\ sent w' = SelectById (Js.field "id" (params req)) :: sent w.
Proof.
  intros Hv Hex Hans.
  rewrite (get_user_absent req w Hv Hex (answers_first _ _ Hans)).
  repeat split.
Qed.

(** What a deletion that passes validation answers when the store answers
    its statement, and the world it leaves. *)
Lemma delete_user_answered req w :
  let id := Js.field "id" (params req) in
  validationErrors idParamsSchema (params req) = [] ->
  faults w (List.length (sent w)) = None ->
  DELETE_user req w
  = (if existsb (has_id id) (users w) then deleted id else not_found,
     answered (Delete id)
              (filter (fun row => negb (has_id id row)) (users w)) w).
Proof.
  intros id Hv Hans.
  unfold DELETE_user, serve, bind, validateRequest. rewrite Hv.
  cbv [ret delete_user try_catch bind].
  erewrite db_query_answered; [| exact Hans | reflexivity].
  rewrite no_row_iff. fold id.
  destruct (existsb (has_id id) (users w)) eqn:Hex; cbn [negb].
  - destruct (valid_id req Hv (has_id_defined _ _ Hex)) as (s & Hs & _).
    fold id in Hs. cbn. rewrite Hs. reflexivity.
  - respond_error. reflexivity.
Qed.

(** X6. A deletion that passes validation, with the store answering, sends
    one statement. When a user has the id, the answer is 200 with the id,
    the rows with the id are gone and every other row stays; when none has,
    the answer is 404 [NOT_FOUND] and the table is as it was. *)
Theorem delete_user_outcome req w :
  validationErrors idParamsSchema (params req) = [] ->
  answers w 1 ->
  let id := Js.field "id" (params req) in
  let (r, w') := DELETE_user req w in
  sent w' = Delete id :: sent w
  /\ if existsb (has_id id) (users w)
     then r = deleted id
          /\ users w' = filter (fun row => negb (has_id id row)) (users w)
          /\ existsb (has_id id) (users w') = false
     else r = not_found /\ users w' = users w.
Proof.
  intros Hv Hans id.
  rewrite (delete_user_answered req w Hv (answers_first _ _ Hans)).
  fold id. cbn [sent users answered]. split; [reflexivity|].
  destruct (existsb (has_id id) (users w)) eqn:Hex.
  - split; [reflexivity|]. split; [reflexivity|]. apply filter_out.
  - split; [reflexivity|]. apply filter_none. exact Hex.
Qed.

(** X7. Once deleted, a user can neither be read nor deleted again: after
    a deletion answered 200, a read of the same id and a second deletion are
    both answered 404 [NOT_FOUND], and the second deletion changes
    nothing. *)
Theorem delete_then_read req w :
  validationErrors idParamsSchema (params req) = [] ->
  existsb (has_id (Js.field "id" (params req))) (users w) = true ->
  answers w 2 ->
  let (r1, w1) := DELETE_user req w in
  status r1 = VInt 200
  /\ fst (GET_user req w1) = not_found
  /\ fst (DELETE_user req w1) = not_found
  /\ users (snd (DELETE_user req w1)) = users w1.
Proof.
  intros Hv Hex Hans.
  rewrite (delete_user_answered req w Hv (answers_first _ _ Hans)).
  cbv zeta. rewrite Hex.
  set (id := Js.field "id" (params req)).
  set (w1 := answered (Delete id) _ w).
  assert (Hgone : existsb (has_id id) (users w1) = false)
    by apply filter_out.
  assert (Hans1 : faults w1 (List.length (sent w1)) = None)
    by exact (answers_second _ _ Hans).
  split; [reflexivity|].
  rewrite (get_user_absent req w1 Hv Hgone Hans1).
  rewrite (delete_user_answered req w1 Hv Hans1).
  cbv zeta. fold id. rewrite Hgone. cbn [fst snd users answered].
  split; [reflexivity|]. split; [reflexivity|].
  apply filter_none. exact Hgone.
Qed.

End Deleting.

(** ** Updating *)

Section Updating.
Context {P : Platform}.

Lemma sql_eq_sym a b : sql_eq a b = sql_eq b a.
Proof.
  destruct a as [| |x|x|x|x|x], b as [| |y|y|y|y|y]; cbn; try reflexivity.
  - destruct x, y; cbn; try reflexivity.
    + apply Z.eqb_sym.
    + rewrite Z.eqb_sym, String.eqb_sym. reflexivity.
  - apply String.eqb_sym.
Qed.

Lemma existsb_false {A} (f : A -> bool) l :
  existsb f l = false <-> forall x, In x l -> f x = false.
Proof.
  split.
  - intros H x Hx. destruct (f x) eqn:E; [|reflexivity].
    rewrite <- H. symmetry. apply existsb_exists. now exists x.
  - intros H. destruct (existsb f l) eqn:E; [|reflexivity].
    apply existsb_exists in E. destruct E as (x & Hx & E).
    rewrite (H x Hx) in E. discriminate E.
Qed.

(** In a table without shared keys, two different rows differ in id and in
    email. *)
Lemma distinct_rows t :
  distinct t = true ->
  forall r o, In r t -> In o t -> r <> o ->
    has_id (column "id" r) o = false
    /\ has_email (column "email" r) o = false.
Proof.
  induction t as [|x t IH]; intros Hd r o Hr Ho Hne; [contradiction|].
  cbn in Hd. apply andb_true_iff in Hd. destruct Hd as [Hc Hd].
  apply negb_true_iff in Hc. unfold collides in Hc.
  apply orb_false_iff in Hc. destruct Hc as [Hci Hce].
  assert (Hx : forall y, In y t ->
             has_id (column "id" x) y = false
             /\ has_email (column "email" x) y = false).
  { intros y Hy. split.
    - exact (proj1 (existsb_false _ _) Hci y Hy).
    - exact (proj1 (existsb_false _ _) Hce y Hy). }
  destruct Hr as [<-|Hr], Ho as [<-|Ho].
  - contradiction.
  - exact (Hx o Ho).
  - destruct (Hx r Hr) as [H1 H2]. unfold has_id, has_email in *.
    rewrite sql_eq_sym. rewrite (sql_eq_sym (column "email" x)). now split.
  - exact (IH Hd r o Hr Ho Hne).
Qed.

(** The statement the update route assembles: its placeholders and its
    values line up, whatever fields are supplied. *)
Lemma assembled_update name email age id now :
  let '(updates, values, paramCount) :=
    push_if_defined (Bare "age") age
      (push_if_defined (Bare "email") email
         (push_if_defined (Bare "name") name ([], [id], 2%nat))) in
  let sets := (updates ++ [(Quoted "updatedAt", paramCount)])%list in
  let params := (values ++ [now])%list in
  Nat.eqb (List.length updates) 0
  = strict_eq name VUndefined && strict_eq email VUndefined
    && strict_eq age VUndefined
  /\ forallb (fun s => is_column (resolve (fst s))) sets = true
  /\ param params 1 = id
  /\ forall r,
       apply_sets sets params r
       = assign "updatedAt" now
           (set_if_defined "age" age
              (set_if_defined "email" email
                 (set_if_defined "name" name r))).
Proof.
  unfold push_if_defined, set_if_defined.
  destruct (strict_eq name VUndefined), (strict_eq email VUndefined),
    (strict_eq age VUndefined); cbn [negb];
    (split; [reflexivity|]); (split; [reflexivity|]);
    (split; [reflexivity|]); intros r; reflexivity.
Qed.

(** An email that passes [updateUserSchema] is absent or a string that is
    not empty. *)
Lemma valid_update_email b :
  validationErrors updateUserSchema (VObj b) = [] ->
  Js.field "email" (VObj b) = VUndefined
  \/ exists e, Js.field "email" (VObj b) = VStr e /\ String.eqb e "" = false.
Proof.
  unfold validationErrors, Joi.validate. intros H.
  apply map_eq_nil in H. cbn [flat_map updateUserSchema fst snd] in H.
  apply app_eq_nil in H. destruct H as [_ H].
  apply app_eq_nil in H. destruct H as [He _].
  unfold Joi.details_of_key in He. apply map_eq_nil in He.
  destruct (Js.field "email" (VObj b)) as [| |x|n|x|l|l]; try discriminate He.
  - left. reflexivity.
  - right. exists x. split; [reflexivity|].
    cbn in He. destruct (String.eqb x ""); [discriminate He | reflexivity].
Qed.

Lemma assoc_assign {A} k c (v : A) l :
  assoc k (assign c v l) = if String.eqb k c then Some v else assoc k l.
Proof.
  induction l as [|[k' v'] l IH]; cbn.
  - destruct (String.eqb k c); reflexivity.
  - destruct (String.eqb c k') eqn:E; cbn.
    + apply String.eqb_eq in E. subst k'.
      destruct (String.eqb k c); reflexivity.
    + destruct (String.eqb k k') eqn:E'.
      * apply String.eqb_eq in E'. subst k'.
        rewrite String.eqb_sym, E. reflexivity.
      * exact IH.
Qed.

Lemma column_assign k c v r :
  column k (assign c v r) = if String.eqb k c then v else column k r.
Proof.
  unfold column, Js.field. rewrite assoc_assign.
  destruct (String.eqb k c); reflexivity.
Qed.

Lemma column_set_if_defined k c v r :
  column k (set_if_defined c v r)
  = if String.eqb k c && negb (strict_eq v VUndefined) then v
    else column k r.
Proof.
  unfold set_if_defined. destruct (strict_eq v VUndefined); cbn.
  - rewrite andb_false_r. reflexivity.
  - rewrite andb_true_r. apply column_assign.
Qed.

Lemma column_updated_email b now r :
  column "email" (updated_row b now r)
  = if strict_eq (Js.field "email" b) VUndefined then column "email" r
    else Js.field "email" b.
Proof.
  unfold updated_row.
  rewrite column_assign, !column_set_if_defined. cbn.
  destruct (strict_eq (Js.field "email" b) VUndefined); reflexivity.
Qed.

(** The email an update writes meets no other row: a supplied email was
    checked against the other rows, and a kept one was unique before. *)
Lemma update_keeps_emails_apart b now id table :
  distinct table = true ->
  existsb (fun r => has_email (Js.field "email" b) r && negb (has_id id r))
          table = false ->
  existsb (fun r => existsb (has_email (column "email" r))
                            (filter (fun r => negb (has_id id r)) table))
          (map (updated_row b now) (filter (has_id id) table)) = false.
Proof.
  intros Hd Hfree. apply existsb_false. intros r' Hr'.
  apply in_map_iff in Hr'. destruct Hr' as (r & <- & Hr).
  apply filter_In in Hr. destruct Hr as [Hr Hid].
  apply existsb_false. intros o Ho.
  apply filter_In in Ho. destruct Ho as [Ho Hoid].
  rewrite column_updated_email.
  destruct (strict_eq (Js.field "email" b) VUndefined).
  - apply (distinct_rows table Hd r o Hr Ho).
    intros ->. rewrite Hid in Hoid. discriminate Hoid.
  - pose proof (proj1 (existsb_false _ _) Hfree o Ho) as H.
    cbn beta in H. rewrite Hoid, andb_true_r in H. exact H.
Qed.

Lemma has_email_undefined r : has_email VUndefined r = false.
Proof. unfold has_email, sql_eq. destruct (column "email" r); reflexivity. Qed.

(** X8. A valid update of a stored user, in a table without shared keys
    where no other user holds the email supplied, with the store answering:
    the answer is 200 with the updated row; in the table the rows with the
    id get the supplied fields and the time of the request as [updatedAt],
    and every other row and every field not supplied stays. *)
Theorem update_user_applies req b w :
  let id := Js.field "id" (params req) in
  let now := VStr (clock w (reads w)) in
  body req = VObj b ->
  validationErrors idParamsSchema (params req) = [] ->
  validationErrors updateUserSchema (body req) = [] ->
  existsb (has_id id) (users w) = true ->
  (strict_eq (Js.field "name" (VObj b)) VUndefined
   && strict_eq (Js.field "email" (VObj b)) VUndefined
   && strict_eq (Js.field "age" (VObj b)) VUndefined) = false ->
  existsb (fun r => has_email (Js.field "email" (VObj b)) r
                    && negb (has_id id r)) (users w) = false ->
  distinct (users w) = true ->
  answers w 3 ->
  let (r, w') := PUT_user req w in
  r = {| status := VInt 200;
         payload := json (first_row (map (updated_row (VObj b) now)
                                         (filter (has_id id) (users w)))) |}
  /\ users w'
     = map (fun row => if has_id id row
                       then updated_row (VObj b) now row else row)
           (users w).
Proof.
  intros id now Hb Hid Hv Hex Hsome Hfree Hd Hans.
  pose proof (assembled_update (Js.field "name" (VObj b))
                (Js.field "email" (VObj b)) (Js.field "age" (VObj b))
                id now) as Hasm.
  unfold PUT_user, serve, bind, validateRequest.
  rewrite Hid, Hv. cbn [ret].
  unfold update_user, try_catch, bind. rewrite Hb.
  cbn [object_of ret now_ISOString].
  match goal with
  | |- context [db_query _ ?w] => set (w0 := w)
  end.
  assert (Hans0 : answers w0 3) by exact Hans.
  erewrite db_query_answered;
    [| exact (answers_first _ _ Hans0) | reflexivity].
  rewrite no_row_iff. fold id. cbn [users w0]. rewrite Hex. cbn [negb].
  match goal with
  | |- context [answered ?q ?t ?w0] => set (w1 := answered q t w0)
  end.
  assert (Hans1 : answers w1 2) by (apply answers_next; exact Hans0).
  assert (Hu1 : users w1 = users w) by reflexivity.
  assert (Hcheck :
    exists w2, (if truthy (Js.field "email" (VObj b))
                then
                  emailCheck <- db_query (SelectIdByEmailNotId
                                            (Js.field "email" (VObj b)) id) ;;
                  if Nat.ltb 0 (List.length emailCheck)
                  then throw (new_ConflictError (Some "Email already exists"))
                  else ret tt
                else ret tt) w1 = (Returned tt, w2)
               /\ users w2 = users w /\ answers w2 1).
  { destruct (truthy (Js.field "email" (VObj b))).
    - unfold bind. erewrite db_query_answered;
        [| exact (answers_first _ _ Hans1) | reflexivity].
      rewrite some_row_iff, Hu1, Hfree. eexists. split; [reflexivity|].
      split; [reflexivity|]. apply answers_next. exact Hans1.
    - exists w1. split; [reflexivity|]. split; [reflexivity|].
      intros k Hk. apply Hans1. lia. }
  unfold bind in Hcheck. cbv beta in Hcheck.
  destruct Hcheck as (w2 & Hc & Hu2 & Hans2).
  rewrite Hc. clear Hc.
  fold id now.
  destruct (push_if_defined (Bare "age") (Js.field "age" (VObj b)) _)
    as [[updates values] paramCount].
  cbv zeta in Hasm. destruct Hasm as (Hlen & Hcols & Hparam & Happ).
  rewrite Hlen, Hsome.
  erewrite db_query_answered; [| exact (answers_first _ _ Hans2) |].
  2:{ unfold exec. rewrite Hcols, Hparam. cbn [negb]. rewrite Hu2.
      rewrite (map_ext _ _ Happ).
      fold (updated_row (VObj b) now).
      rewrite (update_keeps_emails_apart (VObj b) now id (users w) Hd Hfree).
      reflexivity. }
  rewrite no_row_iff, Hex. cbn [negb respond ret serve].
  split; [reflexivity|]. cbn [users].
  apply map_ext. intros r. rewrite Happ. reflexivity.
Qed.

(** X9. An update whose email another user holds is answered 409
    [CONFLICT] after the two look-ups, and no row changes. *)
Theorem update_email_conflict req b w :
  let id := Js.field "id" (params req) in
  let email := Js.field "email" (VObj b) in
  body req = VObj b ->
  validationErrors idParamsSchema (params req) = [] ->
  validationErrors updateUserSchema (body req) = [] ->
  existsb (has_id id) (users w) = true ->
  existsb (fun r => has_email email r && negb (has_id id r)) (users w)
  = true ->
  answers w 2 ->
  let (r, w') := PUT_user req w in
  r = conflict
  /\ users w' = users w
  /\ sent w' = SelectIdByEmailNotId email id :: SelectIdById id :: sent w.
Proof.
  intros id email Hb Hid Hv Hex Hdup Hans.
  assert (Ht : truthy email = true).
  { destruct (valid_update_email b ltac:(rewrite <- Hb; exact Hv))
      as [Hu|(e & He & Hne)]; fold email in Hu || fold email in He.
    - rewrite Hu in Hdup.
      assert (F : existsb (fun r => has_email VUndefined r
                                    && negb (has_id id r)) (users w) = false).
      { apply existsb_false. intros x _. now rewrite has_email_undefined. }
      rewrite F in Hdup. discriminate Hdup.
    - rewrite He. cbn. now rewrite Hne. }
  unfold PUT_user, serve, bind, validateRequest.
  rewrite Hid, Hv. cbn [ret].
  unfold update_user, try_catch, bind. rewrite Hb.
  cbn [object_of ret now_ISOString].
  match goal with
  | |- context [db_query _ ?w] => set (w0 := w)
  end.
  assert (Hans0 : answers w0 2) by exact Hans.
  erewrite db_query_answered;
    [| exact (answers_first _ _ Hans0) | reflexivity].
  rewrite no_row_iff. fold id. cbn [users w0]. rewrite Hex. cbn [negb].
  fold email. rewrite Ht.
  erewrite db_query_answered;
    [| exact (answers_second _ _ Hans0) | reflexivity].
  rewrite some_row_iff. cbn [users answered]. rewrite Hdup.
  respond_error. repeat split.
Qed.

End Updating.

(** ** Creating, then reading or creating again *)

Section CreatingTwice.
Context {P : Platform}.

Lemma created_row_json b w :
  validationErrors createUserSchema (VObj b) = [] ->
  json (VObj (created_row b w)) = VObj (created_row b w).
Proof.
  intros Hv.
  destruct (valid_create_body b Hv) as ((n & Hn) & (e & He) & Ha).
  unfold created_row. rewrite Hn, He.
  destruct Ha as [Ha|[(x & Ha)|(x & Ha)]]; rewrite Ha; unfold or;
    cbn [truthy].
  - reflexivity.
  - destruct x as [z|fl r]; [destruct (negb (z =? 0))|]; reflexivity.
  - destruct (negb (String.eqb x "")); reflexivity.
Qed.

(** A creation with nothing in its way, and the world it leaves. *)
Lemma create_user_world req b w :
  body req = VObj b ->
  validationErrors createUserSchema (body req) = [] ->
  can_create b w ->
  exists w',
    POST_user req w
    = ({| status := VInt 201; payload := VObj (created_row b w) |}, w')
    /\ users w' = (users w ++ [created_row b w])%list
    /\ faults w' = faults w
    /\ List.length (sent w') = S (S (List.length (sent w)))
    /\ drawn w' = S (drawn w).
Proof.
  intros Hb Hv (Hid & Hem & Hans).
  unfold POST_user, serve, bind, validateRequest. rewrite Hv.
  cbv [ret create_user try_catch bind object_of].
  rewrite Hb in *. cbv [uuidv4 now_ISOString].
  erewrite db_query_answered;
    [| exact (answers_first _ _ Hans) | reflexivity].
  rewrite some_row_iff. cbn [users]. rewrite Hem.
  cbn [uuids drawn clock reads users sent faults answered].
  erewrite db_query_answered; [| exact (answers_second _ _ Hans) |].
  2:{ rewrite exec_insert_user. cbv zeta. fold (created_row b w).
      unfold collides.
      change (column "id" (created_row b w))
        with (VStr (uuids w (drawn w))).
      change (column "email" (created_row b w))
        with (Js.field "email" (VObj b)).
      cbn [users answered]. rewrite Hid, Hem. reflexivity. }
  cbn [respond ret first_row]. rewrite (created_row_json b w Hv).
  eexists. split; [reflexivity|]. repeat split.
Qed.

Lemma existsb_app_one {A} (f : A -> bool) l x :
  existsb f (l ++ [x]) = existsb f l || f x.
Proof. rewrite existsb_app. cbn. now rewrite orb_false_r. Qed.

Lemma filter_app_one (f : Row -> bool) l x :
  existsb f l = false -> f x = true -> filter f (l ++ [x]) = [x].
Proof.
  intros Hl Hx. rewrite filter_app. cbn. rewrite Hx.
  replace (filter f l) with (@nil Row); [reflexivity|].
  symmetry. induction l as [|r t IH]; cbn in *; [reflexivity|].
  destruct (f r); [discriminate|]. now apply IH.
Qed.

(** X10. A user just created can be read back under the id of the 201
    response: with the store answering, the read is answered 200 with the
    same JSON as the creation, and changes nothing. *)
Theorem create_then_get req b get w :
  body req = VObj b ->
  validationErrors createUserSchema (body req) = [] ->
  can_create b w ->
  answers w 3 ->
  params get
  = VObj [("id", Js.field "id" (payload (fst (POST_user req w))))] ->
  validationErrors idParamsSchema (params get) = [] ->
  let (r, w1) := POST_user req w in
  let (r', w2) := GET_user get w1 in
  status r = VInt 201 /\ status r' = VInt 200 /\ payload r' = payload r
  /\ users w2 = users w1.
Proof.
  intros Hb Hv Hc Hans.
  destruct (create_user_world req b w Hb Hv Hc)
    as (w1 & -> & Hu & Hf & Hs & _).
  cbn [payload fst]. change (Js.field "id" (VObj (created_row b w)))
    with (VStr (uuids w (drawn w))).
  intros Hp Hvg.
  destruct Hc as (Hfresh & _ & _).
  assert (Hself : has_id (VStr (uuids w (drawn w))) (created_row b w) = true)
    by (cbn; apply String.eqb_refl).
  assert (Hex : existsb (has_id (Js.field "id" (params get))) (users w1)
                = true).
  { rewrite Hp, Hu, existsb_app_one. cbn [Js.field assoc String.eqb].
    cbn. cbn in Hself. rewrite Hself. apply orb_true_r. }
  rewrite (get_user_found get w1 Hvg Hex).
  2:{ rewrite Hf, Hs. rewrite <- (Hans 2%nat ltac:(lia)). f_equal. lia. }
  cbn [status payload users answered].
  split; [reflexivity|]. split; [reflexivity|]. split; [|reflexivity].
  rewrite Hp, Hu.
  change (Js.field "id" (VObj [("id", VStr (uuids w (drawn w)))]))
    with (VStr (uuids w (drawn w))).
  rewrite (filter_app_one _ _ _ Hfresh Hself). cbn [first_row].
  apply created_row_json. rewrite <- Hb. exact Hv.
Qed.

(** X11. After a creation, a second creation with the same email is
    answered 409 [CONFLICT] and adds nothing: the table holds the one new
    row. *)
Theorem create_twice_conflicts req b req2 b2 w :
  body req = VObj b ->
  validationErrors createUserSchema (body req) = [] ->
  can_create b w ->
  answers w 3 ->
  body req2 = VObj b2 ->
  validationErrors createUserSchema (body req2) = [] ->
  Js.field "email" (VObj b2) = Js.field "email" (VObj b) ->
  let (r1, w1) := POST_user req w in
  let (r2, w2) := POST_user req2 w1 in
  status r1 = VInt 201 /\ r2 = conflict
  /\ users w2 = (users w ++ [created_row b w])%list.
Proof.
  intros Hb Hv Hc Hans Hb2 Hv2 He.
  destruct (create_user_world req b w Hb Hv Hc)
    as (w1 & -> & Hu & Hf & Hs & _).
  destruct (valid_create_body b ltac:(rewrite <- Hb; exact Hv))
    as (_ & (e & Hemail) & _).
  unfold POST_user at 1, serve, bind, validateRequest. rewrite Hv2.
  cbv [ret create_user try_catch bind object_of].
  rewrite Hb2. cbv [uuidv4 now_ISOString].
  erewrite db_query_answered; [| | reflexivity].
  2:{ cbn [faults sent]. rewrite Hf, Hs.
      rewrite <- (Hans 2%nat ltac:(lia)). f_equal. lia. }
  rewrite some_row_iff. cbn [users]. rewrite Hu, existsb_app_one, He.
  replace (has_email (Js.field "email" (VObj b)) (created_row b w))
    with true.
  2:{ unfold has_email.
      change (column "email" (created_row b w))
        with (Js.field "email" (VObj b)).
      rewrite Hemail. cbn. symmetry. apply String.eqb_refl. }
  rewrite orb_true_r. respond_error. repeat split.
Qed.

End CreatingTwice.

(** ** What a request can do to the world *)

Lemma map_unmatched (f : Row -> bool) (g : Row -> Row) l :
  existsb f l = false -> map (fun r => if f r then g r else r) l = l.
Proof.
  induction l as [|r t IH]; cbn; [reflexivity|].
  destruct (f r); cbn; [discriminate|]. intros H. now rewrite IH.
Qed.

(** A write that returns no row has changed none. *)
Lemma exec_delete_none id t rows t' :
  exec (Delete id) t = inr (rows, t') ->
  Nat.eqb (List.length rows) 0 = true -> t' = t.
Proof.
  cbn. intros H. inversion H; subst; clear H.
  rewrite no_row_iff. intros E. apply negb_true_iff in E.
  apply filter_none. exact E.
Qed.

Lemma exec_update_none sets values t rows t' :
  exec (Update sets values) t = inr (rows, t') ->
  Nat.eqb (List.length rows) 0 = true -> t' = t.
Proof.
  cbn. destruct (negb _); [discriminate|].
  destruct (existsb _ _); [discriminate|].
  intros H. inversion H; subst; clear H.
  rewrite no_row_iff. intros E. apply negb_true_iff in E.
  apply map_unmatched. exact E.
Qed.

(** An update changes no column its assignments leave alone. *)
Lemma exec_update_columns sets values t rows t' k :
  exec (Update sets values) t = inr (rows, t') ->
  (forall r, column k (apply_sets sets values r) = column k r) ->
  map (column k) t' = map (column k) t.
Proof.
  cbn. destruct (negb _); [discriminate|].
  destruct (existsb _ _); [discriminate|].
  intros H Hk. inversion H; subst; clear H.
  rewrite map_map. apply map_ext. intros r.
  destruct (has_id _ r); [apply Hk | reflexivity].
Qed.

(** The statements sent during the request. *)
Ltac logged :=
  first [ exists (@nil Statement); split; [reflexivity | cbn; lia]
        | eexists [_]; split; [reflexivity | cbn; lia]
        | eexists [_; _]; split; [reflexivity | cbn; lia]
        | eexists [_; _; _]; split; [reflexivity | cbn; lia] ].

(** The answer is the route's success, or an error response that left the
    table as it was. *)
Ltac outcome :=
  first [ left; reflexivity
        | right; split; [cbn; tauto | first [reflexivity | eassumption]] ].

(** The request is over: read its effect off the equation. *)
Ltac close :=
  let H := fresh "H" in
  solve [ try respond_error; cbn; intros H; inversion H; subst; clear H; cbn;
          split; [reflexivity|]; split; [reflexivity|];
          split; [reflexivity|]; split; [logged|];
          split; [first [left; reflexivity | right; reflexivity]|];
          outcome ].

(** The request is over and the table is as it was. *)
Ltac same :=
  let H := fresh "H" in
  solve [ try respond_error; cbn; intros H; inversion H; subst; clear H; cbn;
          repeat split; reflexivity ].

(** The request is over with an error response and the table as it was. *)
Ltac failed_with :=
  let H := fresh "H" in
  solve [ respond_error; intros H; inversion H; subst; right; cbn; tauto ].

Section Effects.
Context {P : Platform}.

(** The effect of a request on the world, on every route and on every
    path through its handler. *)
Lemma router_effect e req w r w' :
  router e req w = (r, w') ->
  faults w' = faults w /\ clock w' = clock w /\ NODE_ENV w' = NODE_ENV w
  /\ (exists qs, sent w' = (qs ++ sent w)%list
                 /\ (List.length qs <= statements e)%nat)
  /\ (failed w' = failed w \/ failed w' = S (failed w))
  /\ (status r = VInt (success e)
      \/ (In r error_responses /\ users w' = users w)).
Proof.
  destruct e;
    unfold router, GET_users, GET_user, POST_user, PUT_user, DELETE_user,
      serve, bind, validateRequest.
  - destruct (validationErrors paginationSchema (query req)); [|close].
    cbv [ret list_users try_catch bind].
    query_cases; [|close].
    cbn in E; inversion E; subst; clear E.
    cbn -[db_query parseInt parseInt_or ceil_div].
    query_cases; [|close].
    cbn -[parseInt parseInt_or ceil_div json]. close.
  - destruct (validationErrors idParamsSchema (params req)); [|close].
    cbv [ret get_user try_catch bind].
    query_cases; [|close].
    cbn in E; inversion E; subst; clear E.
    destruct (Nat.eqb _ _); close.
  - destruct (validationErrors createUserSchema (body req)); [|close].
    cbv [ret create_user try_catch bind object_of].
    destruct (body req); try close.
    all: cbv [uuidv4 now_ISOString throw].
    all: query_cases; [|close].
    all: cbn in E; inversion E; subst; clear E.
    all: destruct (Nat.ltb _ _); [close|].
    all: query_cases; [|close].
    all: close.
  - destruct (validationErrors idParamsSchema (params req)); [|close].
    cbv [ret].
    destruct (validationErrors updateUserSchema (body req)); [|close].
    cbv [ret update_user try_catch bind object_of].
    destruct (body req); try close.
    all: cbv [now_ISOString throw].
    all: query_cases; [|close].
    all: cbn in E; inversion E; subst; clear E.
    all: destruct (Nat.eqb _ _); [close|].
    all: cbv [ret throw bind].
    all: match goal with |- context [truthy ?e] => destruct (truthy e) end.
    all: try (query_cases; [|close]; cbn in E; inversion E; subst; clear E;
              destruct (Nat.ltb _ _); [close|]).
    all: match goal with
         | |- context [push_if_defined ?a ?b ?c] =>
             destruct (push_if_defined a b c)
               as [[updates values] paramCount]
         end.
    all: destruct (Nat.eqb _ _); [close|].
    all: query_cases; [|close].
    all: destruct (Nat.eqb _ _) eqn:Hn;
      [pose proof (exec_update_none _ _ _ _ _ E Hn) | ]; close.
  - destruct (validationErrors idParamsSchema (params req)); [|close].
    cbv [ret delete_user try_catch bind].
    query_cases; [|close].
    destruct (Nat.eqb _ _) eqn:Hn;
      [pose proof (exec_delete_none _ _ _ _ E Hn) | ]; close.
Qed.

(** X12. On every route a request sends the store at most as many
    statements as its handler has queries on one path (two for the listing
    and the creation, three for the update, one for the others), on top of
    those sent before, and at most one of them fails: no statement is
    retried. *)
Theorem statements_are_bounded e req w :
  let w' := snd (router e req w) in
  (exists qs, sent w' = (qs ++ sent w)%list
              /\ (List.length qs <= statements e)%nat)
  /\ (failed w' <= S (failed w))%nat.
Proof.
  cbv zeta. destruct (router e req w) as [r w'] eqn:E.
  destruct (router_effect e req w r w' E) as (_ & _ & _ & Hq & Hf & _).
  split; [exact Hq|]. cbn [snd]. destruct Hf as [->| ->]; lia.
Qed.

(** X13. Every answer of the user routes has the status of the route's
    success, 200 or for a creation 201, or is one of five fixed error
    responses, each with the constant message whatever NODE_ENV is; and
    an error response leaves the table as it was. *)
Theorem failed_request_changes_nothing e req w :
  let (r, w') := router e req w in
  status r = VInt (success e)
  \/ (In r error_responses /\ users w' = users w).
Proof.
  destruct (router e req w) as [r w'] eqn:E.
  exact (proj2 (proj2 (proj2 (proj2 (proj2 (router_effect e req w r w' E)))))).
Qed.

(** X14. The two reading routes never change the table, whatever the
    request and whatever the store answers. *)
Theorem reads_never_write req w :
  users (snd (GET_users req w)) = users w
  /\ users (snd (GET_user req w)) = users w.
Proof.
  split.
  - destruct (GET_users req w) as [r w'] eqn:E. revert E.
    unfold GET_users, serve, bind, validateRequest.
    destruct (validationErrors paginationSchema (query req)); [|same].
    cbv [ret list_users try_catch bind].
    query_cases; [|same].
    cbn in E; inversion E; subst; clear E.
    cbn -[db_query parseInt parseInt_or ceil_div].
    unfold db_query at 1.
    rewrite bare_order_by_is_rejected.
    match goal with
    | |- context [faults ?w0 ?k] => destruct (faults w0 k)
    end; same.
  - destruct (GET_user req w) as [r w'] eqn:E. revert E.
    unfold GET_user, serve, bind, validateRequest.
    destruct (validationErrors idParamsSchema (params req)); [|same].
    cbv [ret get_user try_catch bind].
    query_cases; [|same].
    cbn in E; inversion E; subst; clear E.
    destruct (Nat.eqb _ _); same.
Qed.

(** X15. An update never changes the id or the creation time of any user,
    and never adds or removes a row, whatever the request and whatever the
    store answers. *)
Theorem update_keeps_identity req w :
  let table := users (snd (PUT_user req w)) in
  map (column "id") table = map (column "id") (users w)
  /\ map (column "createdAt") table = map (column "createdAt") (users w)
  /\ List.length table = List.length (users w).
Proof.
  cbv zeta.
  assert (H : map (column "id") (users (snd (PUT_user req w)))
              = map (column "id") (users w)
              /\ map (column "createdAt") (users (snd (PUT_user req w)))
                 = map (column "createdAt") (users w)).
  2:{ split; [apply H|]. split; [apply H|].
      destruct H as [H _]. apply (f_equal (@List.length value)) in H.
      now rewrite !length_map in H. }
  destruct (PUT_user req w) as [r w'] eqn:E. revert E.
  unfold PUT_user, serve, bind, validateRequest.
  destruct (validationErrors idParamsSchema (params req)); [|same].
  cbv [ret].
  destruct (validationErrors updateUserSchema (body req)); [|same].
  cbv [ret update_user try_catch bind object_of].
  destruct (body req) eqn:Hb; try same.
  all: cbv [now_ISOString throw].
  all: query_cases; [|same].
  all: cbn in E; inversion E; subst; clear E.
  all: destruct (Nat.eqb _ _); [same|].
  all: cbv [ret throw bind].
  all: match goal with |- context [truthy ?e] => destruct (truthy e) end.
  all: try (query_cases; [|same]; cbn in E; inversion E; subst; clear E;
            destruct (Nat.ltb _ _); [same|]).
  all: match goal with
       | |- context [push_if_defined (Bare "age") ?age
                       (push_if_defined (Bare "email") ?email
                          (push_if_defined (Bare "name") ?name
                             ([], [?id], 2%nat)))] =>
           pose proof (assembled_update name email age id
                         (VStr (clock w (reads w)))) as Hasm;
           destruct (push_if_defined (Bare "age") age
                       (push_if_defined (Bare "email") email
                          (push_if_defined (Bare "name") name
                             ([], [id], 2%nat))))
             as [[updates values] paramCount]
       end.
  all: cbv zeta in Hasm; destruct Hasm as (_ & _ & _ & Happ).
  all: destruct (Nat.eqb _ _); [same|].
  all: query_cases; [|same].
  all: pose proof (exec_update_columns _ _ _ _ _ "id" E) as Hi.
  all: pose proof (exec_update_columns _ _ _ _ _ "createdAt" E) as Hc.
  all: cbn [users] in Hi, Hc.
  all: assert (Hi' := Hi ltac:(intros r0; rewrite Happ;
         rewrite column_assign, !column_set_if_defined; reflexivity)).
  all: assert (Hc' := Hc ltac:(intros r0; rewrite Happ;
         rewrite column_assign, !column_set_if_defined; reflexivity)).
  all: destruct (Nat.eqb _ _);
    try respond_error; cbn; intros H; inversion H; subst; clear H; cbn;
    split; assumption.
Qed.

(** X16. A creation changes the table exactly when it answers 201, and
    then by appending the one user it returns, under the id the generator
    gave; any other answer is one of the error responses and leaves the
    table as it was. *)
Theorem create_appends_returned_user req w :
  let (r, w') := POST_user req w in
  (status r = VInt 201
   /\ exists row, users w' = (users w ++ [row])%list
                  /\ payload r = json (VObj row)
                  /\ column "id" row = VStr (uuids w (drawn w)))
  \/ (In r error_responses /\ users w' = users w).
Proof.
  destruct (POST_user req w) as [r w'] eqn:E. revert E.
  unfold POST_user, serve, bind, validateRequest.
  destruct (validationErrors createUserSchema (body req)); [|failed_with].
  cbv [ret create_user try_catch bind object_of].
  destruct (body req); try failed_with.
  all: cbv [uuidv4 now_ISOString throw].
  all: query_cases; [|failed_with].
  all: cbn in E; inversion E; subst; clear E.
  all: destruct (Nat.ltb _ _); [failed_with|].
  all: query_cases; [|failed_with].
  all: rewrite exec_insert_user in E; cbv zeta in E.
  all: match type of E with
       | (if ?c then _ else _) = _ => destruct c; [discriminate E|]
       end.
  all: inversion E; subst; clear E.
  all: cbn -[json]; intros H; inversion H; subst; clear H.
  all: left; split; [reflexivity|]; eexists; split; [reflexivity|].
  all: split; reflexivity.
Qed.

End Effects.

(** ** The responder, unmatched routes and the request log *)

Section Boundary.
Context {P : Platform}.

(** X17. The body of the answer to an error of the taxonomy never carries
    the error's message nor its stack, whatever they are and whatever
    NODE_ENV is: the text is the constant one, and there is no [stack]
    member even in development. *)
Theorem taxonomy_message_never_shown env c message statusCode code :
  taxonomy c = true ->
  let r := errorHandler env (construct c message statusCode code) in
  Js.field "error" (payload r) = VStr generic
  /\ Js.field "stack" (payload r) = VUndefined
  /\ Js.field "success" (payload r) = VBool false.
Proof.
  intros Hc r. subst r. unfold errorHandler.
  rewrite (taxonomy_instanceof _ _ _ _ Hc), spread_construct.
  unfold construct; cbn.
  destruct code as [s|]; cbn; unfold or, and; cbn.
  - destruct (String.eqb s ""), (strict_eq env (VStr "development")); cbn;
      repeat split.
  - destruct (strict_eq env (VStr "development")); cbn; repeat split.
Qed.

(** X18. A request no route matches is answered 404 [NOT_FOUND] with the
    constant message, whatever its URL and whatever NODE_ENV is: the text
    naming the route does not reach the body. The world is as it was. *)
Theorem unmatched_route_is_not_found originalUrl w :
  unmatched originalUrl w = (not_found, w).
Proof.
  unfold unmatched, notFoundHandler, serve, throw. respond_error.
  reflexivity.
Qed.

(** X19. The request log never uses the level [error]: a status of 400 or
    more, 500 and above included, is logged as a warning, and anything
    below as information. *)
Theorem log_level_is_warn_or_info statusCode :
  log_level statusCode
  = if 400 <=? statusCode then LevelWarn else LevelInfo.
Proof.
  unfold log_level.
  destruct (400 <=? statusCode) eqn:E; [reflexivity|].
  destruct (500 <=? statusCode) eqn:E'; [lia | reflexivity].
Qed.

End Boundary.

(** ** Health *)

Section HealthChecks.
Context {P : Platform}.

(** The health check never throws, and leaves the world as its query left
    it: it returns [true] when the query returned a first row whose [ping]
    is 1, and [false] when the query threw, returned no row or another
    value. *)
Lemma healthCheck_result select_ping w :
  healthCheck select_ping w
  = (Returned (pong (fst (select_ping w))), snd (select_ping w)).
Proof.
  unfold healthCheck, try_catch, bind.
  destruct (select_ping w) as [[rows|e] w']; cbn [fst snd pong].
  - destruct rows as [|row rest]; reflexivity.
  - reflexivity.
Qed.

(** X20. Whatever the store makes of the query of the health check: the
    health route answers 200 with [healthy] and [connected] when the query
    returned a first row whose [ping] is 1, and 503 with [unhealthy] and
    [disconnected] otherwise, a query that threw included; the body with
    [database: error] of its catch clause is never sent. The readiness
    route answers 200 and 503 on the same condition. *)
Theorem health_follows_the_store select_ping uptime rss heapTotal heapUsed
    external w :
  let up := pong (fst (select_ping w)) in
  let r := fst (GET_health select_ping uptime rss heapTotal heapUsed
                           external w) in
  let r' := fst (GET_ready select_ping w) in
  status r = VInt (if up then 200 else 503)
  /\ Js.field "status" (payload r)
     = VStr (if up then "healthy" else "unhealthy")
  /\ Js.field "database" (payload r)
     = VStr (if up then "connected" else "disconnected")
  /\ r' = send (if up then 200 else 503)
               (VObj [("status", VStr (if up then "ready"
                                       else "not ready"))]).
Proof.
  cbv zeta.
  unfold GET_health, GET_ready, serve, health, ready, try_catch, bind.
  rewrite healthCheck_result.
  destruct (pong (fst (select_ping w))); cbn; repeat split.
Qed.

(** X21. The container's probe exits with 0 exactly when the health route
    answered its request while the health check held, and with 1 on any
    other answer, on an error of the connection and on a timeout. *)
Theorem probe_follows_the_store select_ping uptime rss heapTotal heapUsed
    external w message :
  healthcheck (Responded (status (fst (GET_health select_ping uptime rss
                                         heapTotal heapUsed external w))))
  = (if pong (fst (select_ping w)) then 0 else 1)
  /\ healthcheck (Errored message) = 1
  /\ healthcheck TimedOut = 1.
Proof.
  unfold GET_health, serve, health, try_catch, bind.
  rewrite healthCheck_result.
  destruct (pong (fst (select_ping w))); repeat split.
Qed.

End HealthChecks.

(** ** Seeding *)

(** The script is over: the rows it added are [l]. *)
Ltac seeded_by l :=
  let H := fresh "H" in
  intros H; inversion H; subst; clear H;
  cbn [users answered refused advanced];
  split; [tauto|]; exists l; rewrite ?app_nil_r, <- ?app_assoc;
  split; [reflexivity|]; split; [cbn [List.length seeded]; lia|];
  split; [ first [ intros _; reflexivity
                 | intros F; exfalso; apply F; reflexivity ]
         | first [ intros F; discriminate F
                 | intros _ F; discriminate F
                 | intros _ F; apply (f_equal (@List.length Row)) in F;
                   rewrite ?length_app in F; cbn [List.length] in F; lia ] ].

Section Seeding.
Context {P : Platform}.

Lemma count_is_positive (table : list Row) :
  greater_than_zero
    (parseInt (VStr (string_of_Z (Z.of_nat (List.length table)))))
  = negb (Nat.eqb (List.length table) 0).
Proof.
  rewrite parseInt_count. unfold greater_than_zero.
  destruct table; cbn [List.length Nat.eqb negb]; [reflexivity|].
  apply Z.ltb_lt. lia.
Qed.

(** Evaluating the array literal [sampleUsers] draws three ids and reads
    the clock six times. *)
Lemma sample_users_evaluated {A} (k : list value -> list value -> list value
                                     -> M A) w :
  (alice <- sample_user "Alice Johnson" "alice.johnson@example.com" 28 ;;
   bob <- sample_user "Bob Smith" "bob.smith@example.com" 35 ;;
   carol <- sample_user "Carol Williams" "carol.williams@example.com" 42 ;;
   k alice bob carol) w
  = k (map snd (seeded_user w 0 "Alice Johnson"
                            "alice.johnson@example.com" 28))
      (map snd (seeded_user w 1 "Bob Smith" "bob.smith@example.com" 35))
      (map snd (seeded_user w 2 "Carol Williams"
                            "carol.williams@example.com" 42))
      (advanced 3 6 w).
Proof. destruct w. reflexivity. Qed.

Lemma exec_insert_seeded w i name email age table :
  exec (Insert [Bare "id"; Bare "name"; Bare "email"; Bare "age";
                Quoted "createdAt"; Quoted "updatedAt"]
               (map snd (seeded_user w i name email age))) table
  = if collides (seeded_user w i name email age) table then inl duplicate_key
    else inr ([seeded_user w i name email age],
              (table ++ [seeded_user w i name email age])%list).
Proof. reflexivity. Qed.

End Seeding.

(** Case analysis on an insertion of the script. *)
Ltac insert_cases :=
  query_cases;
  [ match goal with
    | E : exec (Insert _ _) _ = inr _ |- _ =>
        rewrite exec_insert_seeded in E;
        match type of E with
        | (if ?c then _ else _) = _ => destruct c; [discriminate E|]
        end;
        inversion E; subst; clear E
    end
  | ].

Section SeedingRuns.
Context {P : Platform}.

(** Every path through the script: the exit code is 0 or 1, rows are only
    appended, three at most and none to a table that holds a user, and an
    exit with 0 leaves a table that holds a user. *)
Lemma run_seed_cases connecting closing w :
  let (code, w') := run_seed connecting closing w in
  (code = 0 \/ code = 1)
  /\ exists added,
       users w' = (users w ++ added)%list
       /\ (List.length added <= 3)%nat
       /\ (users w <> [] -> added = [])
       /\ (code = 0 -> users w' <> []).
Proof.
  destruct (run_seed connecting closing w) as [code w'] eqn:E. revert E.
  unfold run_seed, seed, try_catch.
  unfold bind at 1.
  destruct connecting as [m|]; cbn [pool throw ret].
  { seeded_by (@nil Row). }
  unfold bind at 1.
  query_cases; [|cbn [ret]; seeded_by (@nil Row)].
  cbn in E; inversion E; subst; clear E.
  unfold bind at 1.
  cbn [first_row object_of ret Js.field assoc String.eqb Ascii.eqb Bool.eqb].
  rewrite count_is_positive.
  destruct (users w) as [|u0 rest] eqn:Hu; cbn [List.length Nat.eqb negb].
  2:{ unfold bind.
      destruct closing; cbn [pool throw ret];
        intros H; inversion H; subst; clear H;
        cbn [users answered]; rewrite ?Hu;
        (split; [tauto|]); exists (@nil Row); rewrite app_nil_r;
        repeat split; try (cbn; lia); discriminate. }
  rewrite sample_users_evaluated.
  unfold insert_user, bind.
  set (w0 := answered CountUsers [] w).
  insert_cases; cbn [ret]; [|seeded_by (@nil Row)].
  insert_cases; cbn [ret];
    [|seeded_by [seeded_user w0 0 "Alice Johnson"
                             "alice.johnson@example.com" 28]].
  insert_cases; cbn [ret];
    [|seeded_by [seeded_user w0 0 "Alice Johnson"
                             "alice.johnson@example.com" 28;
                 seeded_user w0 1 "Bob Smith"
                             "bob.smith@example.com" 35]].
  destruct closing; cbn [pool throw ret]; seeded_by (seeded w0).
Qed.

(** X22. Whatever the pool and the store do, the seeding script exits with
    0 or 1, changes no row that was there, appends three rows at most, and
    appends none to a table that already holds a user. *)
Theorem seed_only_appends connecting closing w :
  let (code, w') := run_seed connecting closing w in
  (code = 0 \/ code = 1)
  /\ exists added,
       users w' = (users w ++ added)%list
       /\ (List.length added <= 3)%nat
       /\ (if Nat.eqb (List.length (users w)) 0 then True else added = []).
Proof.
  pose proof (run_seed_cases connecting closing w) as H.
  destruct (run_seed connecting closing w) as [code w'].
  destruct H as (Hc & added & Hu & Hl & He & _).
  split; [exact Hc|]. exists added. split; [exact Hu|]. split; [exact Hl|].
  destruct (users w); [exact I|]. apply He. discriminate.
Qed.

(** On a table that holds a user the script sends its count and nothing
    else. *)
Lemma seed_skips w :
  users w <> [] ->
  faults w (List.length (sent w)) = None ->
  run_seed None None w = (0, answered CountUsers (users w) w).
Proof.
  intros Hu Hf.
  unfold run_seed, seed, try_catch.
  unfold bind at 1. cbn [pool ret].
  unfold bind at 1.
  erewrite db_query_answered; [| exact Hf | reflexivity].
  unfold bind at 1.
  cbn [first_row object_of ret Js.field assoc String.eqb Ascii.eqb Bool.eqb].
  rewrite count_is_positive.
  destruct (users w) as [|u0 rest]; [contradiction|].
  reflexivity.
Qed.

(** X23. Seeding twice is seeding once: after a run that exits with 0, a
    second run whose pool works and whose count the store answers exits
    with 0, leaves the table as the first run left it and draws no id. *)
Theorem seed_is_idempotent connecting closing w :
  let w1 := snd (run_seed connecting closing w) in
  fst (run_seed connecting closing w) = 0 ->
  faults w1 (List.length (sent w1)) = None ->
  let (code, w2) := run_seed None None w1 in
  code = 0 /\ users w2 = users w1 /\ drawn w2 = drawn w1.
Proof.
  pose proof (run_seed_cases connecting closing w) as H.
  destruct (run_seed connecting closing w) as [code w1].
  destruct H as (_ & added & _ & _ & _ & Hne).
  cbn [fst snd]. intros Hc Hf.
  rewrite (seed_skips w1 (Hne Hc) Hf). repeat split.
Qed.

(** X24. On an empty table, with a pool that works, a store that answers
    and three ids that differ, the script inserts its three users in order
    and exits with 0; each user has an id of its own, and its [createdAt]
    and [updatedAt] are two successive readings of the clock, not one. *)
Theorem seed_fills_empty_table w :
  users w = [] ->
  answers w 4 ->
  NoDup [uuids w (drawn w); uuids w (1 + drawn w)%nat;
         uuids w (2 + drawn w)%nat] ->
  let (code, w') := run_seed None None w in
  code = 0 /\ users w' = seeded w
  /\ drawn w' = (3 + drawn w)%nat /\ reads w' = (6 + reads w)%nat.
Proof.
  intros Hu Hans Hnd.
  assert (H01 : String.eqb (uuids w (drawn w)) (uuids w (1 + drawn w)%nat)
                = false).
  { apply String.eqb_neq. intros F. inversion Hnd as [|? ? Hn _]; subst.
    apply Hn. left. symmetry. exact F. }
  assert (H02 : String.eqb (uuids w (drawn w)) (uuids w (2 + drawn w)%nat)
                = false).
  { apply String.eqb_neq. intros F. inversion Hnd as [|? ? Hn _]; subst.
    apply Hn. right. left. symmetry. exact F. }
  assert (H12 : String.eqb (uuids w (1 + drawn w)%nat)
                           (uuids w (2 + drawn w)%nat) = false).
  { apply String.eqb_neq. intros F. inversion Hnd as [|? ? _ Hnd']; subst.
    inversion Hnd' as [|? ? Hn _]; subst. apply Hn. left. symmetry.
    exact F. }
  unfold run_seed, seed, try_catch.
  unfold bind at 1. cbn [pool ret].
  unfold bind at 1.
  erewrite db_query_answered;
    [| exact (answers_first _ _ Hans) | reflexivity].
  unfold bind at 1.
  cbn [first_row object_of ret Js.field assoc String.eqb Ascii.eqb Bool.eqb].
  rewrite count_is_positive, Hu. cbn [List.length Nat.eqb negb].
  rewrite sample_users_evaluated.
  unfold insert_user, bind.
  set (w0 := answered CountUsers [] w).
  erewrite db_query_answered; [| | rewrite exec_insert_seeded; reflexivity].
  2:{ cbn. rewrite <- (Hans 1%nat ltac:(lia)). f_equal. lia. }
  cbn [ret].
  erewrite db_query_answered; [| | rewrite exec_insert_seeded].
  2:{ cbn. rewrite <- (Hans 2%nat ltac:(lia)). f_equal. lia. }
  2:{ cbn [users answered advanced app].
      replace (collides _ _) with false; [reflexivity|].
      symmetry. subst w0. unfold collides, seeded_user. cbn.
      cbn in H01. rewrite H01. reflexivity. }
  cbn [ret].
  erewrite db_query_answered; [| | rewrite exec_insert_seeded].
  2:{ cbn. rewrite <- (Hans 3%nat ltac:(lia)). f_equal. lia. }
  2:{ cbn [users answered advanced app].
      replace (collides _ _) with false; [reflexivity|].
      symmetry. subst w0. unfold collides, seeded_user. cbn.
      cbn in H02, H12. rewrite H02, H12. reflexivity. }
  cbn [ret pool]. repeat split.
Qed.

End SeedingRuns.

(** ** The theorems above at concrete requests *)

Section FurtherExamples.
#[local] Existing Instance Sample.sample.

(** X1 at the id of the tests that is not a UUID. *)
Lemma invalid_request_is_rejected_witness :
  let req := Sample.request [("id", VStr "invalid-id")] [] [] in
  let w := Sample.world [Sample.alice] Sample.healthy VUndefined in
  violations GetUser req <> []
  /\ router GetUser req w = (validation_error, w).
Proof.
  intros req w.
  assert (H : violations GetUser req <> []) by (vm_compute; discriminate).
  split; [exact H | exact (invalid_request_is_rejected GetUser req w H)].
Defined.

(** X2 at a read of a stored user. *)
Lemma store_sees_only_valid_ids_witness :
  let req := Sample.request [("id", VStr Sample.id1)] [] [] in
  let w := Sample.world [Sample.alice] Sample.healthy VUndefined in
  sent (snd (router GetUser req w)) <> sent w
  /\ exists s, Js.field "id" (params req) = VStr s /\ isGuid s = true.
Proof.
  intros req w.
  assert (H : sent (snd (router GetUser req w)) <> sent w)
    by (vm_compute; discriminate).
  split; [exact H|].
  apply (store_sees_only_valid_ids GetUser req w); [left; reflexivity | | exact H].
  vm_compute. discriminate.
Defined.

(** X3 at a creation whose body also names an id and a role. *)
Lemma undeclared_keys_have_no_effect_witness :
  let b := [("name", VStr "Test User"); ("email", VStr "test@example.com")] in
  let b' := (b ++ [("id", VStr Sample.id2); ("role", VStr "admin")])%list in
  let req := Sample.request [] [] b in
  let req' := Sample.request [] [] b' in
  let w := Sample.world [Sample.alice] Sample.healthy VUndefined in
  router CreateUser req' w = router CreateUser req w
  /\ status (fst (router CreateUser req' w)) = VInt 201
  /\ Js.field "id" (payload (fst (router CreateUser req' w))) = VStr "a".
Proof.
  intros b b' req req' w.
  assert (Hk : forall k, In k ["name"; "email"; "age"] ->
                         Js.field k (VObj b) = Js.field k (VObj b')).
  { intros k [<-|[<-|[<-|[]]]]; reflexivity. }
  destruct (undeclared_keys_have_no_effect CreateUser req req' b b' w
              eq_refl eq_refl eq_refl eq_refl Hk) as [_ H].
  split; [exact H|]. rewrite H. split; vm_compute; reflexivity.
Defined.

(** X4 at the id of the tests that is not a UUID. *)
Lemma custom_id_message_is_never_used_witness :
  let input := VObj [("id", VStr "invalid-id")] in
  let d := {| Joi.path := ["id"]; Joi.type := "string.guid";
              Joi.message := defaultMessage "string.guid" "id" |} in
  In d (Joi.validate idParamsSchema input)
  /\ Joi.type d <> "string.uuid".
Proof.
  intros input d.
  assert (H : In d (Joi.validate idParamsSchema input))
    by (left; reflexivity).
  split; [exact H|].
  exact (proj1 (custom_id_message_is_never_used input d H)).
Defined.

(** X5 at an id no user has. *)
Lemma get_user_missing_witness :
  let req := Sample.request [("id", VStr Sample.id2)] [] [] in
  let w := Sample.world [Sample.alice] Sample.healthy VUndefined in
  existsb (has_id (Js.field "id" (params req))) (users w) = false
  /\ fst (GET_user req w) = not_found
  /\ users (snd (GET_user req w)) = [Sample.alice].
Proof.
  intros req w.
  pose proof (get_user_missing req w eq_refl eq_refl
                (healthy_answers _ _ _)) as H.
  destruct (GET_user req w) as [r w'].
  destruct H as (Hr & Hu & _).
  split; [reflexivity|]. split; [exact Hr | exact Hu].
Defined.

(** X6 at the deletion of a stored user. *)
Lemma delete_user_outcome_witness :
  let bob := Sample.user Sample.id2 "Bob Smith" "bob.smith@example.com"
                         (VInt 35) "2024-01-02T00:00:00.000Z" in
  let req := Sample.request [("id", VStr Sample.id1)] [] [] in
  let w := Sample.world [Sample.alice; bob] Sample.healthy VUndefined in
  validationErrors idParamsSchema (params req) = []
  /\ fst (DELETE_user req w) = deleted (VStr Sample.id1)
  /\ users (snd (DELETE_user req w)) = [bob].
Proof.
  intros bob req w.
  pose proof (delete_user_outcome req w eq_refl (healthy_answers _ _ _))
    as H.
  cbv zeta in H.
  destruct (DELETE_user req w) as [r w'].
  destruct H as (_ & H).
  change (existsb (has_id (Js.field "id" (params req))) (users w))
    with true in H.
  destruct H as (Hr & Hu & _).
  split; [reflexivity|]. split; [exact Hr | exact Hu].
Defined.

(** X7 at the deletion of a stored user. *)
Lemma delete_then_read_witness :
  let req := Sample.request [("id", VStr Sample.id1)] [] [] in
  let w := Sample.world [Sample.alice] Sample.healthy VUndefined in
  existsb (has_id (Js.field "id" (params req))) (users w) = true
  /\ fst (GET_user req (snd (DELETE_user req w))) = not_found.
Proof.
  intros req w.
  pose proof (delete_then_read req w eq_refl eq_refl
                (healthy_answers _ _ _)) as H.
  destruct (DELETE_user req w) as [r1 w1].
  destruct H as (_ & Hg & _).
  split; [reflexivity | exact Hg].
Defined.

(** X8 at a change of name. *)
Lemma update_user_applies_witness :
  let bob := Sample.user Sample.id2 "Bob Smith" "bob.smith@example.com"
                         (VInt 35) "2024-01-02T00:00:00.000Z" in
  let b := [("name", VStr "Alice Cooper")] in
  let req := Sample.request [("id", VStr Sample.id1)] [] b in
  let w := Sample.world [Sample.alice; bob] Sample.healthy VUndefined in
  distinct (users w) = true
  /\ status (fst (PUT_user req w)) = VInt 200
  /\ map (column "name") (users (snd (PUT_user req w)))
     = [VStr "Alice Cooper"; VStr "Bob Smith"].
Proof.
  intros bob b req w.
  pose proof (update_user_applies req b w eq_refl eq_refl eq_refl eq_refl
                eq_refl eq_refl eq_refl (healthy_answers _ _ _)) as H.
  cbv zeta in H.
  destruct (PUT_user req w) as [r w'].
  destruct H as (Hr & Hu).
  split; [reflexivity|]. split.
  - rewrite Hr. reflexivity.
  - cbn [snd]. rewrite Hu. reflexivity.
Defined.

(** X9 at a change to the email of another user. *)
Lemma update_email_conflict_witness :
  let bob := Sample.user Sample.id2 "Bob Smith" "bob.smith@example.com"
                         (VInt 35) "2024-01-02T00:00:00.000Z" in
  let b := [("email", VStr "bob.smith@example.com")] in
  let req := Sample.request [("id", VStr Sample.id1)] [] b in
  let w := Sample.world [Sample.alice; bob] Sample.healthy VUndefined in
  validationErrors updateUserSchema (body req) = []
  /\ fst (PUT_user req w) = conflict
  /\ users (snd (PUT_user req w)) = [Sample.alice; bob].
Proof.
  intros bob b req w.
  pose proof (update_email_conflict req b w eq_refl eq_refl eq_refl eq_refl
                eq_refl (healthy_answers _ _ _)) as H.
  cbv zeta in H.
  destruct (PUT_user req w) as [r w'].
  destruct H as (Hr & Hu & _).
  split; [reflexivity|]. split; [exact Hr | exact Hu].
Defined.

(** X10 at the user of the creation test, with a generator whose next id
    is a UUID. *)
Lemma create_then_get_witness :
  let b := [("name", VStr "Test User"); ("email", VStr "test@example.com");
            ("age", VInt 25)] in
  let req := Sample.request [] [] b in
  let get := Sample.request [("id", VStr Sample.id2)] [] [] in
  let w := {| users := [Sample.alice]; sent := [];
              faults := Sample.healthy; failed := 0;
              uuids := fun _ => Sample.id2; drawn := 0;
              clock := fun _ => "2024-01-01T00:00:00.000Z"; reads := 0;
              NODE_ENV := VUndefined |} in
  validationErrors idParamsSchema (params get) = []
  /\ status (fst (POST_user req w)) = VInt 201
  /\ payload (fst (GET_user get (snd (POST_user req w))))
     = payload (fst (POST_user req w)).
Proof.
  intros b req get w.
  assert (Hc : can_create b w).
  { split; [reflexivity|]. split; [reflexivity|]. intros k _. reflexivity. }
  assert (Hans : answers w 3) by (intros k _; reflexivity).
  pose proof (create_then_get req b get w eq_refl eq_refl Hc Hans eq_refl
                eq_refl) as H.
  destruct (POST_user req w) as [r w1]. cbn [fst snd].
  destruct (GET_user get w1) as [r' w2].
  destruct H as (Hs & _ & Hp & _).
  split; [reflexivity|]. split; [exact Hs | exact Hp].
Defined.

(** X11 at the user of the creation test, created twice. *)
Lemma create_twice_conflicts_witness :
  let b := [("name", VStr "Test User"); ("email", VStr "test@example.com");
            ("age", VInt 25)] in
  let b2 := [("name", VStr "Another User");
             ("email", VStr "test@example.com")] in
  let req := Sample.request [] [] b in
  let req2 := Sample.request [] [] b2 in
  let w := Sample.world [Sample.alice] Sample.healthy VUndefined in
  validationErrors createUserSchema (body req2) = []
  /\ fst (POST_user req2 (snd (POST_user req w))) = conflict
  /\ List.length (users (snd (POST_user req2 (snd (POST_user req w)))))
     = 2%nat.
Proof.
  intros b b2 req req2 w.
  pose proof (create_twice_conflicts req b req2 b2 w eq_refl eq_refl
                (sample_can_create b eq_refl) (healthy_answers _ _ _)
                eq_refl eq_refl eq_refl) as H.
  destruct (POST_user req w) as [r1 w1]. cbn [snd].
  destruct (POST_user req2 w1) as [r2 w2].
  destruct H as (_ & Hr & Hu).
  split; [reflexivity|]. split; [exact Hr|].
  cbn [fst snd]. rewrite Hu. reflexivity.
Defined.

(** X17 at a conflict in development. *)
Lemma taxonomy_message_never_shown_witness :
  taxonomy ConflictError = true
  /\ Js.field "error"
       (payload (errorHandler (VStr "development")
                   (new_ConflictError (Some "Email already exists"))))
     = VStr generic.
Proof.
  split; [reflexivity|].
  exact (proj1 (taxonomy_message_never_shown (VStr "development")
                  ConflictError (VStr "Email already exists") (Some 409)
                  (Some "CONFLICT") eq_refl)).
Defined.

(** X23 at an empty table and a store that answers. *)
Lemma seed_is_idempotent_witness :
  let w := Sample.world [] Sample.healthy VUndefined in
  let w1 := snd (run_seed None None w) in
  fst (run_seed None None w) = 0
  /\ fst (run_seed None None w1) = 0
  /\ users (snd (run_seed None None w1)) = users w1.
Proof.
  intros w w1.
  assert (H0 : fst (run_seed None None w) = 0) by (vm_compute; reflexivity).
  pose proof (seed_is_idempotent None None w H0 eq_refl) as H.
  fold w1 in H.
  destruct (run_seed None None w1) as [code w2].
  destruct H as (Hc & Hu & _).
  split; [exact H0|]. split; [exact Hc | exact Hu].
Defined.

(** X24 at an empty table and a store that answers. *)
Lemma seed_fills_empty_table_witness :
  let w := Sample.world [] Sample.healthy VUndefined in
  NoDup [uuids w (drawn w); uuids w (1 + drawn w)%nat;
         uuids w (2 + drawn w)%nat]
  /\ fst (run_seed None None w) = 0
  /\ map (column "email") (users (snd (run_seed None None w)))
     = [VStr "alice.johnson@example.com"; VStr "bob.smith@example.com";
        VStr "carol.williams@example.com"].
Proof.
  intros w.
  assert (Hnd : NoDup [uuids w (drawn w); uuids w (1 + drawn w)%nat;
                       uuids w (2 + drawn w)%nat]).
  { repeat constructor; cbn; intuition discriminate. }
  pose proof (seed_fills_empty_table w eq_refl (healthy_answers _ _ _) Hnd)
    as H.
  destruct (run_seed None None w) as [code w'].
  destruct H as (Hc & Hu & _).
  split; [exact Hnd|]. split; [exact Hc|].
  cbn [snd]. rewrite Hu. reflexivity.
Defined.

(** X25 at two creations in a row. *)
Lemma created_ids_are_distinct_witness :
  let post name email :=
    (CreateUser,
     Sample.request [] [] [("name", VStr name); ("email", VStr email)]) in
  let reqs := [post "Test User" "test@example.com";
               post "Another User" "another@example.com"] in
  let w := Sample.world [Sample.alice] Sample.healthy VUndefined in
  NoDup (issued (snd (run reqs w)))
  /\ NoDup (created_ids (map fst reqs) (fst (run reqs w))).
Proof.
  intros post reqs w.
  assert (Hnd : NoDup (issued (snd (run reqs w)))).
  { vm_compute. repeat constructor; cbn; intuition discriminate. }
  split; [exact Hnd | exact (created_ids_are_distinct reqs w Hnd)].
Defined.

End FurtherExamples.
